(** * toggl2slack: a shallow embedding of [main.go] and the properties of its
    payload finalisation, dispatch, delivery and configuration round trip.

    The development follows the Go source function by function.  Strings are
    byte strings ([string]), Go [int]/[int64] values are [Z], the
    [map[string]Payload] of the configuration is a [gmap string Payload], and
    every effect of the program (files, standard output, the log, the HTTP
    requests handed to the client, the captured variables of [start]) is a
    field of an explicit [State] threaded through a small state-and-panic
    monad. *)

From Stdlib Require Import ZArith Ascii String List Lia Bool.
From stdpp Require Import base option list gmap strings sorting.

Set Warnings "-register-all".
Local Open Scope string_scope.
Local Open Scope list_scope.
Local Open Scope Z_scope.

(** ** Outcomes of Go calls *)

(** A Go call returns, panics (the panic values of this program are
    messages), or ends the process through [os.Exit], as [log.Fatal] does. *)
Inductive outcome (A : Type) : Type :=
| Ret (a : A)
| Panic (msg : string)
| Exit (code : Z).
Arguments Ret {A} a.
Arguments Panic {A} msg.
Arguments Exit {A} code.

(** Go's [error]: [nil] is [None], an error is its message. *)
Definition error := option string.
Definition nil_error : error := None.

(** ** The payload (struct [Payload]) *)

Record Payload := mkPayload {
  Channel : string;
  IconEmoji : string;
  IconUrl : string;
  Username : string;
  Text : string
}.

Definition zeroPayload : Payload := mkPayload "" "" "" "" "".

Definition set_Channel (v : string) (p : Payload) : Payload :=
  mkPayload v (IconEmoji p) (IconUrl p) (Username p) (Text p).
Definition set_IconEmoji (v : string) (p : Payload) : Payload :=
  mkPayload (Channel p) v (IconUrl p) (Username p) (Text p).
Definition set_IconUrl (v : string) (p : Payload) : Payload :=
  mkPayload (Channel p) (IconEmoji p) v (Username p) (Text p).
Definition set_Username (v : string) (p : Payload) : Payload :=
  mkPayload (Channel p) (IconEmoji p) (IconUrl p) v (Text p).
Definition set_Text (v : string) (p : Payload) : Payload :=
  mkPayload (Channel p) (IconEmoji p) (IconUrl p) (Username p) v.

Definition defaultChannel : string := "#general".
Definition defaultUsername : string := "Toggl".
Definition defaultIconUrl : string :=
  "http://blog.toggl.com/wp-content/uploads/2015/04/toggl-button-light.png".
Definition bothIconsMessage : string :=
  "Do not specify both icon_emoji and icon_url".

(** [func (p *Payload) reverseMergeDefault()]: the four [if] statements in
    source order, each one reading the payload as the previous one left it.
    The receiver is a pointer to the caller's local copy, so the function
    maps the old value of that local to its new value, or panics. *)
Definition reverseMergeDefault (p : Payload) : outcome Payload :=
  let p := if String.eqb (Channel p) "" then set_Channel defaultChannel p else p in
  let p := if String.eqb (Username p) "" then set_Username defaultUsername p else p in
  let p := if String.eqb (IconEmoji p) "" && String.eqb (IconUrl p) ""
           then set_IconUrl defaultIconUrl p else p in
  if negb (String.eqb (IconEmoji p) "") && negb (String.eqb (IconUrl p) "")
  then Panic bothIconsMessage
  else Ret p.

(** ** JSON documents (package [encoding/json])

    The program reaches [encoding/json] through [json.Marshal],
    [json.MarshalIndent] and [json.Unmarshal], driven by the struct tags of
    [Config] and [Payload] and by the two methods of [Templates].  The
    library works in two stages, kept apart here: values are turned into (or
    read from) a JSON document, and the document is written as (or scanned
    from) text.  A number keeps its literal, as the library's decoder does
    until it knows the Go type it is stored in. *)
Module Json.

Inductive json : Type :=
| JNull
| JBool (b : bool)
| JNum (literal : string)
| JStr (s : string)
| JArr (elems : list json)
| JObj (members : list (string * json)).

Definition keys (j : json) : list string :=
  match j with
  | JObj ms => map fst ms
  | _ => []
  end.

Definition hexDigit (n : N) : ascii :=
  if (n <? 10)%N then ascii_of_N (48 + n) else ascii_of_N (87 + n).

(** The encoder's string escaping with HTML escaping on, as [json.Marshal]
    has it: the quote and the backslash get a backslash, the control
    characters their short or [\u00xx] form, [<], [>] and [&] the
    [\u00xx] form, and the line and paragraph separators U+2028 and U+2029
    (bytes E2 80 A8 and E2 80 A9) the [\u202x] form.  Every other byte is
    copied; the strings are taken to be valid UTF-8, on which the encoder
    performs no further change. *)
Fixpoint escape (s : string) : string :=
  match s with
  | EmptyString => EmptyString
  | String c r =>
      let n := N_of_ascii c in
      if (n =? 226)%N then
        match r with
        | String c1 (String c2 r') =>
            if ((N_of_ascii c1 =? 128) && ((N_of_ascii c2 =? 168) || (N_of_ascii c2 =? 169)))%N
            then "\u202" +:+ String (hexDigit (N_of_ascii c2 - 160)) (escape r')
            else String c (escape r)
        | _ => String c (escape r)
        end
      else if (n =? 34)%N then "\" +:+ String c (escape r)
      else if (n =? 92)%N then "\\" +:+ escape r
      else if (n =? 8)%N then "\b" +:+ escape r
      else if (n =? 12)%N then "\f" +:+ escape r
      else if (n =? 10)%N then "\n" +:+ escape r
      else if (n =? 13)%N then "\r" +:+ escape r
      else if (n =? 9)%N then "\t" +:+ escape r
      else if ((n <? 32) || (n =? 60) || (n =? 62) || (n =? 38))%N then
        "\u00" +:+ String (hexDigit (n / 16)) (String (hexDigit (n mod 16)) (escape r))
      else String c (escape r)
  end.

Definition dquote : ascii := ascii_of_N 34.
Definition backslash : ascii := ascii_of_N 92.
Definition newline : ascii := ascii_of_N 10.

Definition quote (s : string) : string :=
  String dquote (escape s +:+ String dquote "").

Fixpoint join (sep : string) (l : list string) : string :=
  match l with
  | [] => ""
  | [x] => x
  | x :: r => x +:+ sep +:+ join sep r
  end.

(** The text [json.Marshal] produces: no white space at all. *)
Fixpoint compact (j : json) : string :=
  match j with
  | JNull => "null"
  | JBool true => "true"
  | JBool false => "false"
  | JNum lit => lit
  | JStr s => quote s
  | JArr l => "[" +:+ join "," (map compact l) +:+ "]"
  | JObj ms =>
      "{" +:+ join "," (map (fun kv => quote (fst kv) +:+ ":" +:+ compact (snd kv)) ms) +:+ "}"
  end.

Fixpoint spaces (unit : string) (depth : nat) : string :=
  match depth with
  | O => ""
  | S d => unit +:+ spaces unit d
  end.

Definition breakLine (unit : string) (depth : nat) : string :=
  String newline (spaces unit depth).

(** The text [json.MarshalIndent] produces with an empty prefix: an empty object or
    array stays on one line, every member or element of a non-empty one
    starts a line indented one unit deeper, and a colon is followed by one
    space. *)
Fixpoint indent (unit : string) (depth : nat) (j : json) : string :=
  match j with
  | JArr [] => "[]"
  | JObj [] => "{}"
  | JArr l =>
      "[" +:+ breakLine unit (S depth)
          +:+ join ("," +:+ breakLine unit (S depth)) (map (indent unit (S depth)) l)
          +:+ breakLine unit depth +:+ "]"
  | JObj ms =>
      "{" +:+ breakLine unit (S depth)
          +:+ join ("," +:+ breakLine unit (S depth))
                (map (fun kv => quote (fst kv) +:+ ": " +:+ indent unit (S depth) (snd kv)) ms)
          +:+ breakLine unit depth +:+ "}"
  | _ => compact j
  end.

(** *** Scanning text *)

Definition isSpace (c : ascii) : bool :=
  let n := N_of_ascii c in
  ((n =? 32) || (n =? 9) || (n =? 10) || (n =? 13))%N.

Definition isDigit (c : ascii) : bool :=
  let n := N_of_ascii c in ((48 <=? n) && (n <=? 57))%N.

Fixpoint skipSpace (s : string) : string :=
  match s with
  | String c r => if isSpace c then skipSpace r else s
  | EmptyString => s
  end.

Fixpoint spanDigits (s : string) : string * string :=
  match s with
  | String c r =>
      if isDigit c then let '(d, t) := spanDigits r in (String c d, t) else ("", s)
  | EmptyString => ("", s)
  end.

Definition hexValue (c : ascii) : option N :=
  let n := N_of_ascii c in
  if ((48 <=? n) && (n <=? 57))%N then Some (n - 48)%N
  else if ((97 <=? n) && (n <=? 102))%N then Some (n - 87)%N
  else if ((65 <=? n) && (n <=? 70))%N then Some (n - 55)%N
  else None.

(** Four hexadecimal digits of a [\\u] escape. *)
Definition hex4 (s : string) : option (N * string) :=
  match s with
  | String a (String b (String c (String d r))) =>
      match hexValue a, hexValue b, hexValue c, hexValue d with
      | Some x, Some y, Some z, Some w => Some (((x * 16 + y) * 16 + z) * 16 + w, r)%N
      | _, _, _, _ => None
      end
  | _ => None
  end.

(** UTF-8 encoding of a code point (at most U+10FFFF). *)
Definition utf8 (cp : N) : string :=
  let b (n : N) := ascii_of_N n in
  (if cp <? 128 then String (b cp) ""
   else if cp <? 2048 then String (b (192 + cp / 64)) (String (b (128 + cp mod 64)) "")
   else if cp <? 65536 then
     String (b (224 + cp / 4096))
       (String (b (128 + (cp / 64) mod 64)) (String (b (128 + cp mod 64)) ""))
   else
     String (b (240 + cp / 262144))
       (String (b (128 + (cp / 4096) mod 64))
          (String (b (128 + (cp / 64) mod 64)) (String (b (128 + cp mod 64)) ""))))%N.

Definition replacementChar : N := 65533.

Definition isSurrogate (cp : N) : bool := ((55296 <=? cp) && (cp <? 57344))%N.

(** The code point of a [\\u] escape whose four digits gave [cp]: a high
    surrogate followed by an escaped low surrogate is the pair's code point,
    any other surrogate is U+FFFD. *)
Definition escapedRune (cp : N) (r : string) : N * string :=
  if isSurrogate cp then
    match r with
    | String c1 (String c2 r') =>
        if (Ascii.eqb c1 backslash && Ascii.eqb c2 "u"%char)%bool then
          match hex4 r' with
          | Some (lo, r'') =>
              if ((cp <? 56320) && (56320 <=? lo) && (lo <? 57344))%N
              then (65536 + (cp - 55296) * 1024 + (lo - 56320), r'')%N
              else (replacementChar, r)
          | None => (replacementChar, r)
          end
        else (replacementChar, r)
    | _ => (replacementChar, r)
    end
  else (cp, r).

(** The body of a string literal, after its opening quote, up to and
    including the closing one. *)
Fixpoint scanString (fuel : nat) (s : string) : option (string * string) :=
  match fuel with
  | O => None
  | S f =>
      match s with
      | EmptyString => None
      | String c r =>
          if Ascii.eqb c dquote then Some ("", r)
          else if Ascii.eqb c backslash then
            match r with
            | EmptyString => None
            | String e r' =>
                let simple (x : N) :=
                  match scanString f r' with
                  | Some (t, rest) => Some (String (ascii_of_N x) t, rest)
                  | None => None
                  end in
                let n := N_of_ascii e in
                if (n =? 34)%N then simple 34%N
                else if (n =? 92)%N then simple 92%N
                else if (n =? 47)%N then simple 47%N
                else if (n =? 98)%N then simple 8%N
                else if (n =? 102)%N then simple 12%N
                else if (n =? 110)%N then simple 10%N
                else if (n =? 114)%N then simple 13%N
                else if (n =? 116)%N then simple 9%N
                else if (n =? 117)%N then
                  match hex4 r' with
                  | Some (cp, r'') =>
                      let '(rune, r3) := escapedRune cp r'' in
                      match scanString f r3 with
                      | Some (t, rest) => Some (utf8 rune +:+ t, rest)
                      | None => None
                      end
                  | None => None
                  end
                else None
            end
          else if (N_of_ascii c <? 32)%N then None
          else
            match scanString f r with
            | Some (t, rest) => Some (String c t, rest)
            | None => None
            end
      end
  end.

(** A number literal: an optional minus, an integer part without leading
    zeros, an optional fraction and an optional exponent. *)
Definition scanNumber (s : string) : option (string * string) :=
  let '(sign, s1) :=
    match s with
    | String "-"%char r => ("-", r)
    | _ => ("", s)
    end in
  let '(int, s2) := spanDigits s1 in
  match int with
  | EmptyString => None
  | String d more =>
      if (Ascii.eqb d "0"%char && negb (String.eqb more ""))%bool then None
      else
        let fracPart :=
          match s2 with
          | String "."%char r =>
              let '(fr, s3) := spanDigits r in
              if String.eqb fr "" then None else Some ("." +:+ fr, s3)
          | _ => Some ("", s2)
          end in
        match fracPart with
        | None => None
        | Some (frac, s3) =>
            let expPart :=
              match s3 with
              | String e r =>
                  if (Ascii.eqb e "e"%char || Ascii.eqb e "E"%char)%bool then
                    let '(sg, r1) :=
                      match r with
                      | String "+"%char r' => ("+", r')
                      | String "-"%char r' => ("-", r')
                      | _ => ("", r)
                      end in
                    let '(ex, s4) := spanDigits r1 in
                    if String.eqb ex "" then None
                    else Some (String e (sg +:+ ex), s4)
                  else Some ("", s3)
              | EmptyString => Some ("", s3)
              end in
            match expPart with
            | None => None
            | Some (ex, s4) => Some (sign +:+ int +:+ frac +:+ ex, s4)
            end
        end
  end.

Definition dropPrefix (pre s : string) : option string :=
  if String.prefix pre s
  then Some (String.substring (String.length pre) (String.length s - String.length pre) s)
  else None.

(** One value, with the white space before it; the members of an object
    after its opening brace; the elements of an array after its opening
    bracket.  Members and elements are collected in the order of the text. *)
Fixpoint scanValue (fuel : nat) (s : string) : option (json * string) :=
  match fuel with
  | O => None
  | S f =>
      match skipSpace s with
      | EmptyString => None
      | String c r as s' =>
          if Ascii.eqb c "{"%char then
            match skipSpace r with
            | String "}"%char r' => Some (JObj [], r')
            | r' =>
                match scanMembers f r' with
                | Some (ms, rest) => Some (JObj ms, rest)
                | None => None
                end
            end
          else if Ascii.eqb c "["%char then
            match skipSpace r with
            | String "]"%char r' => Some (JArr [], r')
            | r' =>
                match scanElements f r' with
                | Some (l, rest) => Some (JArr l, rest)
                | None => None
                end
            end
          else if Ascii.eqb c dquote then
            match scanString (String.length r) r with
            | Some (t, rest) => Some (JStr t, rest)
            | None => None
            end
          else if Ascii.eqb c "t"%char then
            option_map (fun rest => (JBool true, rest)) (dropPrefix "true" s')
          else if Ascii.eqb c "f"%char then
            option_map (fun rest => (JBool false, rest)) (dropPrefix "false" s')
          else if Ascii.eqb c "n"%char then
            option_map (fun rest => (JNull, rest)) (dropPrefix "null" s')
          else
            match scanNumber s' with
            | Some (lit, rest) => Some (JNum lit, rest)
            | None => None
            end
      end
  end
with scanMembers (fuel : nat) (s : string) : option (list (string * json) * string) :=
  match fuel with
  | O => None
  | S f =>
      match skipSpace s with
      | String c r =>
          if Ascii.eqb c dquote then
            match scanString (String.length r) r with
            | Some (k, afterKey) =>
                match skipSpace afterKey with
                | String ":"%char afterColon =>
                    match scanValue f afterColon with
                    | Some (v, afterValue) =>
                        match skipSpace afterValue with
                        | String ","%char more =>
                            match scanMembers f more with
                            | Some (ms, rest) => Some ((k, v) :: ms, rest)
                            | None => None
                            end
                        | String "}"%char rest => Some ([(k, v)], rest)
                        | _ => None
                        end
                    | None => None
                    end
                | _ => None
                end
            | None => None
            end
          else None
      | EmptyString => None
      end
  end
with scanElements (fuel : nat) (s : string) : option (list json * string) :=
  match fuel with
  | O => None
  | S f =>
      match scanValue f s with
      | Some (v, afterValue) =>
          match skipSpace afterValue with
          | String ","%char more =>
              match scanElements f more with
              | Some (l, rest) => Some (v :: l, rest)
              | None => None
              end
          | String "]"%char rest => Some ([v], rest)
          | _ => None
          end
      | None => None
      end
  end.

(** The whole text is one value surrounded by white space; anything else is
    a syntax error, detected before any value is stored. *)
Definition parse (text : string) : option json :=
  match scanValue (S (String.length text)) text with
  | Some (j, rest) =>
      match skipSpace rest with
      | EmptyString => Some j
      | _ => None
      end
  | None => None
  end.

(** The number a run of decimal digits stands for, read from the left on
    top of [acc]; [None] when a character is not a digit. *)
Fixpoint digitsValue (acc : Z) (s : string) : option Z :=
  match s with
  | EmptyString => Some acc
  | String c r =>
      if isDigit c then digitsValue (acc * 10 + Z.of_N (N_of_ascii c - 48)) r else None
  end.

Definition minInt64 : Z := - 2 ^ 63.
Definition maxInt64 : Z := 2 ^ 63 - 1.

(** [strconv.ParseInt(literal, 10, 64)] on a number literal: only a plain
    run of digits with an optional minus is an integer, and it has to fit
    64 bits. *)
Definition parseInt64 (lit : string) : option Z :=
  let '(neg, body) :=
    match lit with
    | String "-"%char r => (true, r)
    | _ => (false, lit)
    end in
  match body with
  | EmptyString => None
  | _ =>
      match digitsValue 0 body with
      | Some v =>
          let v := if neg then - v else v in
          if (minInt64 <=? v) && (v <=? maxInt64) then Some v else None
      | None => None
      end
  end.

(** A key of an object selects the struct field whose name equals it
    exactly or, failing that, without regard to the case of letters.  The
    field names of this program are distinct lower-case ASCII words, so both
    steps are one comparison of the lower-cased texts.  (The two letters
    outside ASCII that the library also folds onto [k] and [s] are not
    folded here.) *)
Definition lowerAscii (c : ascii) : ascii :=
  let n := N_of_ascii c in
  if ((65 <=? n) && (n <=? 90))%N then ascii_of_N (n + 32) else c.

Fixpoint lower (s : string) : string :=
  match s with
  | EmptyString => EmptyString
  | String c r => String (lowerAscii c) (lower r)
  end.

Definition foldEq (a b : string) : bool := String.eqb (lower a) (lower b).

End Json.

(** ** Results of library calls *)

(** A Go call returning [(value, error)]. *)
Inductive result (A : Type) : Type :=
| Ok (a : A)
| Err (msg : string).
Arguments Ok {A} a.
Arguments Err {A} msg.

(** ** [strconv.Itoa] *)

Definition digitChar (d : Z) : ascii := ascii_of_N (48 + Z.to_N d).

(** The digit loop of [strconv.FormatInt] in base 10: the last digit is
    written in front of the digits produced so far while ten or more
    remains, then the leading digit is written. *)
Fixpoint formatDigits (fuel : nat) (n : Z) (acc : string) : string :=
  match fuel with
  | O => acc
  | S f =>
      if n <? 10 then String (digitChar n) acc
      else formatDigits f (n / 10) (String (digitChar (n mod 10)) acc)
  end.

(** One round per binary digit of [n] is more than its decimal digits. *)
Definition digitFuel (n : Z) : nat := S (Z.to_nat (Z.log2 n)).

Definition Itoa (i : Z) : string :=
  if i <? 0 then String "-"%char (formatDigits (digitFuel (- i)) (- i) "")
  else formatDigits (digitFuel i) i "".

(** ** Activities (package [toggl]) *)

(** The fields of [toggl.Activity] this program reads itself are the owning
    user's identifier; the description is what the default templates show.
    A template sees the whole value. *)
Record Activity := mkActivity {
  UserId : Z;
  Description : string
}.

(** ** HTTP requests and responses (package [net/http]) *)

Record Request := mkRequest {
  Method : string;
  URL : string;
  ReqProto : string;
  Host : string;
  ContentType : string;
  Body : string
}.

Record Response := mkResponse {
  RespProto : string;
  Status : string;
  StatusCode : Z
}.

(** ** Library behaviour the program is written against

    The template engine ([text/template] with the function map of [sprig])
    and URL parsing ([net/url], through [http.NewRequest]) are used as the
    libraries provide them. *)
Class Externals := {
  (** a parsed template, the target of a [*template.Template] *)
  Template : Type;
  (** [template.New(name).Funcs(sprig.TxtFuncMap()).Parse(text)] *)
  template_Parse : string -> string -> result Template;
  (** what [t.Execute(buf, a)] has written to [buf] when it returns, with or
      without an error *)
  template_Execute : Template -> Activity -> string;
  (** [url.Parse] as [http.NewRequest] calls it: the host of the URL, or
      the parse error *)
  url_Host : string -> result string
}.

Section Program.
Context `{Externals}.

Import Json.

(** ** The configuration (structs [Templates] and [Config]) *)

(** A [*template.Template] is [nil] ([None]) or points to a parsed
    template. *)
Record Templates := mkTemplates {
  Started : option Template;
  Finished : option Template
}.

(** The field [Templates] of the source is [templates] here, the name
    being taken by its type.  A [nil] map and an empty map are the same
    [gmap]: the program only reads [Users], and the one [Config] it marshals
    has an entry. *)
Record Config := mkConfig {
  Interval : Z;
  TogglToken : string;
  DashboardId : Z;
  WebhookURL : string;
  Users : gmap string Payload;
  templates : Templates
}.

Definition zeroConfig : Config := mkConfig 0 "" 0 "" ∅ (mkTemplates None None).

Definition set_Interval (v : Z) (c : Config) : Config :=
  mkConfig v (TogglToken c) (DashboardId c) (WebhookURL c) (Users c) (templates c).
Definition set_TogglToken (v : string) (c : Config) : Config :=
  mkConfig (Interval c) v (DashboardId c) (WebhookURL c) (Users c) (templates c).
Definition set_DashboardId (v : Z) (c : Config) : Config :=
  mkConfig (Interval c) (TogglToken c) v (WebhookURL c) (Users c) (templates c).
Definition set_WebhookURL (v : string) (c : Config) : Config :=
  mkConfig (Interval c) (TogglToken c) (DashboardId c) v (Users c) (templates c).
Definition set_Users (v : gmap string Payload) (c : Config) : Config :=
  mkConfig (Interval c) (TogglToken c) (DashboardId c) (WebhookURL c) v (templates c).
Definition set_templates (v : Templates) (c : Config) : Config :=
  mkConfig (Interval c) (TogglToken c) (DashboardId c) (WebhookURL c) (Users c) v.

(** ** Marshalling (the struct tags, and [Templates.MarshalJSON]) *)

(** A field tagged [omitempty] is left out when it is the empty string. *)
Definition omitEmpty (name v : string) : list (string * json) :=
  if String.eqb v "" then [] else [(name, JStr v)].

(** [json.Marshal(p)] for a [Payload], field by field in declaration order:
    [channel] and [username] are always written, [icon_emoji], [icon_url]
    and [text] carry [omitempty]. *)
Definition marshalPayload (p : Payload) : json :=
  JObj ([("channel", JStr (Channel p))]
        ++ omitEmpty "icon_emoji" (IconEmoji p)
        ++ omitEmpty "icon_url" (IconUrl p)
        ++ [("username", JStr (Username p))]
        ++ omitEmpty "text" (Text p)).

(** The encoder writes a map with its keys in byte order. *)
Definition sortByKey {A : Type} (l : list (string * A)) : list (string * A) :=
  merge_sort (fun x y => Is_true (String.leb (fst x) (fst y))) l.

Definition marshalMap {A : Type} (f : A -> json) (m : gmap string A) : json :=
  JObj (map (fun kv => (fst kv, f (snd kv))) (sortByKey (map_to_list m))).

Definition startedDefault : string := "started {{.Description}}".
Definition finishedDefault : string := "finished {{.Description}}".

(** [func (t Templates) MarshalJSON() ([]byte, error)]: the two default
    template texts when both pointers are [nil], no bytes at all
    otherwise. *)
Definition MarshalJSON (t : Templates) : result string :=
  match Started t, Finished t with
  | None, None =>
      Ok (compact (marshalMap JStr
            (<["started" := startedDefault]> (<["finished" := finishedDefault]> ∅))))
  | _, _ => Ok ""
  end.

(** The encoder checks what a [MarshalJSON] method returns to be one JSON
    value and fails otherwise. *)
Definition marshalTemplates (t : Templates) : result json :=
  match MarshalJSON t with
  | Ok bytes =>
      match parse bytes with
      | Some j => Ok j
      | None => Err "json: error calling MarshalJSON for type main.Templates"
      end
  | Err e => Err e
  end.

Definition marshalConfig (c : Config) : result json :=
  match marshalTemplates (templates c) with
  | Ok t =>
      Ok (JObj [("interval", JNum (Itoa (Interval c)));
                ("toggl_token", JStr (TogglToken c));
                ("dashboard_id", JNum (Itoa (DashboardId c)));
                ("webhook_url", JStr (WebhookURL c));
                ("users", marshalMap marshalPayload (Users c));
                ("templates", t)])
  | Err e => Err e
  end.

(** ** Unmarshalling ([json.Unmarshal] into [*Config], and
    [Templates.UnmarshalJSON])

    A value of the wrong JSON type leaves its target as it was and is
    remembered as the error [Unmarshal] returns at the end (the first one
    wins); [null] leaves strings, numbers and structs as they were and
    empties a map; the error of an [UnmarshalJSON] method ends the decoding
    at once.  Error texts are abbreviated. *)
Definition firstError (saved e : error) : error :=
  match saved with
  | Some _ => saved
  | None => e
  end.

Definition storeString (j : json) (old : string) : string * error :=
  match j with
  | JStr s => (s, None)
  | JNull => (old, None)
  | _ => (old, Some "json: cannot unmarshal into Go value of type string")
  end.

Definition storeInt (j : json) (old : Z) : Z * error :=
  match j with
  | JNum lit =>
      match parseInt64 lit with
      | Some v => (v, None)
      | None => (old, Some "json: cannot unmarshal number into Go value of type int")
      end
  | JNull => (old, None)
  | _ => (old, Some "json: cannot unmarshal into Go value of type int")
  end.

Definition storePayloadField (acc : Payload * error) (kv : string * json) : Payload * error :=
  let '(p, saved) := acc in
  let '(k, v) := kv in
  if foldEq k "channel" then
    let '(x, e) := storeString v (Channel p) in (set_Channel x p, firstError saved e)
  else if foldEq k "icon_emoji" then
    let '(x, e) := storeString v (IconEmoji p) in (set_IconEmoji x p, firstError saved e)
  else if foldEq k "icon_url" then
    let '(x, e) := storeString v (IconUrl p) in (set_IconUrl x p, firstError saved e)
  else if foldEq k "username" then
    let '(x, e) := storeString v (Username p) in (set_Username x p, firstError saved e)
  else if foldEq k "text" then
    let '(x, e) := storeString v (Text p) in (set_Text x p, firstError saved e)
  else acc.

Definition storePayload (j : json) (old : Payload) : Payload * error :=
  match j with
  | JObj ms => fold_left storePayloadField ms (old, None)
  | JNull => (old, None)
  | _ => (old, Some "json: cannot unmarshal into Go value of type main.Payload")
  end.

(** Every member of the object is decoded into a fresh zero element and
    stored under its key, in text order, into the map the field holds. *)
Definition storeMap {A : Type} (store : json -> A -> A * error) (zero : A)
    (j : json) (old : gmap string A) : gmap string A * error :=
  match j with
  | JObj ms =>
      fold_left (fun (acc : gmap string A * error) (kv : string * json) =>
                   let '(x, e) := store (snd kv) zero in
                   (<[fst kv := x]> (fst acc), firstError (snd acc) e))
                ms (old, None)
  | JNull => (∅, None)
  | _ => (old, Some "json: cannot unmarshal into Go value of type map")
  end.

(** [template.Must]: the parse error is the panic value. *)
Definition Must (r : result Template) : outcome Template :=
  match r with
  | Ok t => Ret t
  | Err e => Panic e
  end.

(** [func (t *Templates) UnmarshalJSON(data []byte) error].  [data] is the
    text of one value of a document already scanned, given here as that
    value; [j] starts as the nil map, and a missing key reads as the empty
    text. *)
Definition UnmarshalJSON (t : Templates) (data : json) : outcome (Templates * error) :=
  let '(j, e) := storeMap storeString "" data ∅ in
  match e with
  | Some msg => Ret (t, Some msg)
  | None =>
      match Must (template_Parse "started" (default "" (j !! "started"))) with
      | Ret st =>
          match Must (template_Parse "finished" (default "" (j !! "finished"))) with
          | Ret fi => Ret (mkTemplates (Some st) (Some fi), None)
          | Panic msg => Panic msg
          | Exit code => Exit code
          end
      | Panic msg => Panic msg
      | Exit code => Exit code
      end
  end.

Inductive decoding : Type :=
| Decoded (c : Config) (saved : error)
| Stopped (c : Config) (e : string)
| Crashed (o : outcome (Config * error)).

Definition storeConfigField (acc : decoding) (kv : string * json) : decoding :=
  match acc with
  | Decoded c saved =>
      let '(k, v) := kv in
      if foldEq k "interval" then
        let '(x, e) := storeInt v (Interval c) in Decoded (set_Interval x c) (firstError saved e)
      else if foldEq k "toggl_token" then
        let '(x, e) := storeString v (TogglToken c) in
        Decoded (set_TogglToken x c) (firstError saved e)
      else if foldEq k "dashboard_id" then
        let '(x, e) := storeInt v (DashboardId c) in
        Decoded (set_DashboardId x c) (firstError saved e)
      else if foldEq k "webhook_url" then
        let '(x, e) := storeString v (WebhookURL c) in
        Decoded (set_WebhookURL x c) (firstError saved e)
      else if foldEq k "users" then
        let '(x, e) := storeMap storePayload zeroPayload v (Users c) in
        Decoded (set_Users x c) (firstError saved e)
      else if foldEq k "templates" then
        match UnmarshalJSON (templates c) v with
        | Ret (t, Some e) => Stopped (set_templates t c) e
        | Ret (t, None) => Decoded (set_templates t c) saved
        | Panic msg => Crashed (Panic msg)
        | Exit code => Crashed (Exit code)
        end
      else acc
  | _ => acc
  end.

(** [json.Unmarshal(text, config)]: the new value of [*config] and the
    error returned. *)
Definition Unmarshal (text : string) (c : Config) : outcome (Config * error) :=
  match parse text with
  | None => Ret (c, Some "invalid character or unexpected end of JSON input")
  | Some (JObj ms) =>
      match fold_left storeConfigField ms (Decoded c None) with
      | Decoded c' saved => Ret (c', saved)
      | Stopped c' e => Ret (c', Some e)
      | Crashed o => o
      end
  | Some JNull => Ret (c, None)
  | Some _ => Ret (c, Some "json: cannot unmarshal into Go value of type main.Config")
  end.

(** ** The state the program runs in

    The file system (the files that exist with their contents, the paths
    whose access is refused, the paths that cannot be written), what has been
    printed and logged, the requests handed to the HTTP client so far and how
    the network answers the next one given those before it, and the two
    variables of [start] its callbacks capture: the [Config] that [config]
    points to, and [err]. *)
Record State := mkState {
  files : gmap string string;
  unreadable : gset string;
  unwritable : gset string;
  stdout : list string;
  logged : list string;
  sent : list Request;
  network : list Request -> Request -> result Response;
  config : Config;
  err : error
}.

Definition M (A : Type) : Type := State -> outcome A * State.

Definition ret {A : Type} (a : A) : M A := fun s => (Ret a, s).

Definition bind {A B : Type} (m : M A) (k : A -> M B) : M B :=
  fun s =>
    match m s with
    | (Ret a, s') => k a s'
    | (Panic msg, s') => (Panic msg, s')
    | (Exit code, s') => (Exit code, s')
    end.

Notation "x <- m ;; k" := (bind m (fun x => k))
  (at level 100, m at next level, right associativity).
Notation "m ;;; k" := (bind m (fun _ => k))
  (at level 100, right associativity).

Definition panic {A : Type} (msg : string) : M A := fun s => (Panic msg, s).
Definition os_Exit {A : Type} (code : Z) : M A := fun s => (Exit code, s).

Definition lift {A : Type} (o : outcome A) : M A := fun s => (o, s).

Definition get_config : M Config := fun s => (Ret (config s), s).

Definition put_config (c : Config) : M unit :=
  fun s => (Ret tt, mkState (files s) (unreadable s) (unwritable s) (stdout s) (logged s)
                            (sent s) (network s) c (err s)).

Definition put_err (e : error) : M unit :=
  fun s => (Ret tt, mkState (files s) (unreadable s) (unwritable s) (stdout s) (logged s)
                            (sent s) (network s) (config s) e).

(** The [log] package: one line per call, time stamp left out. *)
Definition log_Print (line : string) : M unit :=
  fun s => (Ret tt, mkState (files s) (unreadable s) (unwritable s) (stdout s)
                            (logged s ++ [line]) (sent s) (network s) (config s) (err s)).

Definition fmt_Print (text : string) : M unit :=
  fun s => (Ret tt, mkState (files s) (unreadable s) (unwritable s) (stdout s ++ [text])
                            (logged s) (sent s) (network s) (config s) (err s)).

Definition endl : string := String Json.newline "".

(** [log.Fatal(e)]: the line, then [os.Exit(1)]. *)
Definition log_Fatal {A : Type} (e : string) : M A :=
  log_Print (e +:+ endl) ;;; os_Exit 1.

(** *** Files (packages [os] and [io/ioutil]) *)

Inductive StatResult : Type :=
| StatFound
| StatNotExist
| StatFailed (msg : string).

Definition os_Stat (path : string) : M StatResult :=
  fun s =>
    (Ret (if decide (path ∈ unreadable s) then StatFailed ("stat " +:+ path +:+ ": permission denied")
          else match files s !! path with
               | Some _ => StatFound
               | None => StatNotExist
               end), s).

(** [os.Open] followed by [ioutil.ReadAll]. *)
Definition readFile (path : string) : M (result string) :=
  fun s =>
    (Ret (if decide (path ∈ unreadable s) then Err ("open " +:+ path +:+ ": permission denied")
          else match files s !! path with
               | Some text => Ok text
               | None => Err ("open " +:+ path +:+ ": no such file or directory")
               end), s).

(** [ioutil.WriteFile(path, data, 0644)]: the file is created or replaced,
    unless the path cannot be written. *)
Definition ioutil_WriteFile (path data : string) : M error :=
  fun s =>
    if decide (path ∈ unwritable s) then
      (Ret (Some ("open " +:+ path +:+ ": permission denied")), s)
    else
      (Ret None, mkState (<[path := data]> (files s)) (unreadable s) (unwritable s) (stdout s)
                         (logged s) (sent s) (network s) (config s) (err s)).

(** *** The HTTP client *)

(** [http.NewRequest(method, url, body)] with a method the library accepts;
    the only failure left is the URL. *)
Definition http_NewRequest (method url body : string) : result Request :=
  match url_Host url with
  | Ok h => Ok (mkRequest method url "HTTP/1.1" h "" body)
  | Err e => Err e
  end.

(** [req.Header.Add("Content-Type", v)] on a request without that
    header. *)
Definition addContentType (v : string) (r : Request) : Request :=
  mkRequest (Method r) (URL r) (ReqProto r) (Host r) v (Body r).

(** [client.Do(req)]: the request leaves the program, and the network
    answers with a response (of any status) or with an error. *)
Definition client_Do (req : Request) : M (result Response) :=
  fun s =>
    (Ret (network s (sent s) req),
     mkState (files s) (unreadable s) (unwritable s) (stdout s) (logged s)
             (sent s ++ [req]) (network s) (config s) (err s)).

(** ** The functions of [main.go] *)

(** [loadConfig(path)]: the [Config] its first result points to, or the
    error. *)
Definition loadConfig (path : string) : M (result Config) :=
  file <- readFile path ;;
  match file with
  | Err e => ret (Err e)
  | Ok res =>
      u <- lift (Unmarshal res zeroConfig) ;;
      match u with
      | (_, Some e) => ret (Err e)
      | (c, None) => ret (Ok c)
      end
  end.

Definition nilDereference : string :=
  "runtime error: invalid memory address or nil pointer dereference".

(** [func notify(c *Config, t *template.Template, a *toggl.Activity,
    p Payload) error].  [c] is always [start]'s [config], read from the
    state; [p] is the callee's own copy of the payload, a value.  Executing
    a [nil] template dereferences it.  [json.Marshal] cannot fail on a
    struct of strings, so its error branch is not reachable. *)
Definition notify (t : option Template) (a : Activity) (p : Payload) : M error :=
  match t with
  | None => panic nilDereference
  | Some tm =>
      let buf := template_Execute tm a in
      let p := set_Text buf p in
      p <- lift (reverseMergeDefault p) ;;
      let b := compact (marshalPayload p) in
      c <- get_config ;;
      match http_NewRequest "POST" (WebhookURL c) b with
      | Err e => ret (Some e)
      | Ok req =>
          let req := addContentType "application/json" req in
          log_Print (ReqProto req +:+ " " +:+ Method req +:+ " " +:+ Host req +:+ endl) ;;;
          r <- client_Do req ;;
          match r with
          | Err e => ret (Some e)
          | Ok resp =>
              log_Print (RespProto resp +:+ " " +:+ Status resp +:+ endl) ;;;
              ret nil_error
          end
      end
  end.

(** [func configPath(c *cli.Context) string], on the value of the
    [config] flag. *)
Definition configPath (flag : string) : string :=
  if String.eqb flag "" then "config.json" else flag.

Definition defaultConfig : Config :=
  mkConfig 60 "YOUR_TOGGL_TOKEN" 0 "https://hooks.slack.com/services/..."
           (<["TOGGL_USER_ID" := mkPayload "#general" "" "" "toggl2slack" ""]> ∅)
           (mkTemplates None None).

(** [json.MarshalIndent] of a [Config] with an empty prefix and the given
    indentation unit. *)
Definition MarshalIndent (c : Config) (unit : string) : result string :=
  match marshalConfig c with
  | Ok j => Ok (indent unit 0 j)
  | Err e => Err e
  end.

(** [func generateConfig(c *cli.Context) error]. *)
Definition generateConfig (flag : string) : M error :=
  let path := configPath flag in
  st <- os_Stat path ;;
  match st with
  | StatNotExist =>
      match MarshalIndent defaultConfig "    " with
      | Err e => ret (Some e)
      | Ok text =>
          e <- ioutil_WriteFile path text ;;
          match e with
          | None => fmt_Print (path +:+ " was generated" +:+ endl)
          | Some _ => ret tt
          end ;;;
          ret e
      end
  | _ => ret (Some "config.json already exists")
  end.

(** [log.Println("ERROR[toggl2slack]: ", err)]: operands separated by a
    space. *)
Definition logError (e : string) : M unit :=
  log_Print ("ERROR[toggl2slack]: " +:+ " " +:+ e +:+ endl).

(** The closure [onStart] of [start]. *)
Definition onStart (a : Activity) : M unit :=
  c <- get_config ;;
  match Users c !! Itoa (UserId a) with
  | Some p =>
      e <- notify (Started (templates c)) a p ;;
      put_err e ;;;
      match e with
      | Some msg => logError msg
      | None => ret tt
      end
  | None => ret tt
  end.

(** The closure [onStop] of [start]. *)
Definition onStop (a : Activity) : M unit :=
  c <- get_config ;;
  match Users c !! Itoa (UserId a) with
  | Some p =>
      e <- notify (Finished (templates c)) a p ;;
      put_err e ;;;
      match e with
      | Some msg => logError msg
      | None => ret tt
      end
  | None => ret tt
  end.

(** [func start(con *cli.Context) error] up to the call of
    [toggl.NewHook], which hands [onStart] and [onStop] to the library's
    polling loop. *)
Definition start (flag : string) : M unit :=
  let c := configPath flag in
  r <- loadConfig c ;;
  match r with
  | Err e => log_Fatal e
  | Ok cfg => put_config cfg ;;; put_err nil_error
  end.

End Program.

Arguments Templates {_}.
Arguments Config {_}.
Arguments State {_}.
Arguments M {_} A.

(** ** A reference instance of the libraries

    A small template engine and URL reader on which the program can be run:
    a template is literal text with actions of the form [{{.Field}}]; the
    fields of an activity are [UserId] and [Description]; executing an
    action on another field stops the output there.  A URL is refused when
    it holds a control character, and its host is what stands between the
    scheme separator and the next slash, question mark or hash. *)
Module Reference.

Inductive Node : Type :=
| Lit (s : string)
| Field (name : string).

Definition isLetter (c : ascii) : bool :=
  let n := N_of_ascii c in
  (((65 <=? n) && (n <=? 90)) || ((97 <=? n) && (n <=? 122)) || (n =? 95))%N.

Fixpoint allLetters (s : string) : bool :=
  match s with
  | EmptyString => true
  | String c r => isLetter c && allLetters r
  end.

Fixpoint trimLeft (s : string) : string :=
  match s with
  | String " "%char r => trimLeft r
  | _ => s
  end.

Definition trim (s : string) : string :=
  String.rev (trimLeft (String.rev (trimLeft s))).

(** The text up to the first occurrence of [sep], and the text after it. *)
Fixpoint splitAt (sep : string) (s : string) : option (string * string) :=
  if String.prefix sep s
  then Some ("", String.substring (String.length sep) (String.length s - String.length sep) s)
  else match s with
       | EmptyString => None
       | String c r =>
           match splitAt sep r with
           | Some (a, b) => Some (String c a, b)
           | None => None
           end
       end.

Definition action (body : string) : result Node :=
  match trim body with
  | String "."%char name =>
      if allLetters name && negb (String.eqb name "") then Ok (Field name)
      else Err "template: bad character in action"
  | _ => Err "template: function not defined"
  end.

Fixpoint parseNodes (fuel : nat) (text : string) : result (list Node) :=
  match fuel with
  | O => Err "template: text too long"
  | S f =>
      match splitAt "{{" text with
      | None => Ok (if String.eqb text "" then [] else [Lit text])
      | Some (before, rest) =>
          match splitAt "}}" rest with
          | None => Err "template: unclosed action"
          | Some (body, after) =>
              match action body, parseNodes f after with
              | Ok n, Ok l => Ok ((if String.eqb before "" then [] else [Lit before]) ++ n :: l)%list
              | Err e, _ => Err e
              | _, Err e => Err e
              end
          end
      end
  end.

Definition parseTemplate (name text : string) : result (list Node) :=
  parseNodes (S (String.length text)) text.

Fixpoint execute (l : list Node) (a : Activity) : string :=
  match l with
  | [] => ""
  | Lit s :: r => s +:+ execute r a
  | Field f :: r =>
      if String.eqb f "Description" then Description a +:+ execute r a
      else if String.eqb f "UserId" then Itoa (UserId a) +:+ execute r a
      else ""
  end.

Fixpoint hasControl (s : string) : bool :=
  match s with
  | EmptyString => false
  | String c r => ((N_of_ascii c <? 32) || (N_of_ascii c =? 127))%N || hasControl r
  end.

Fixpoint untilDelimiter (s : string) : string :=
  match s with
  | EmptyString => ""
  | String c r =>
      if (Ascii.eqb c "/"%char || Ascii.eqb c "?"%char || Ascii.eqb c "#"%char)%bool then ""
      else String c (untilDelimiter r)
  end.

Definition hostOf (url : string) : result string :=
  if hasControl url then Err "net/url: invalid control character in URL"
  else match splitAt "://" url with
       | Some (_, rest) => Ok (untilDelimiter rest)
       | None => Ok ""
       end.

#[export] Instance externals : Externals := {
  Template := list Node;
  template_Parse := parseTemplate;
  template_Execute := execute;
  url_Host := hostOf
}.

Definition sampleTemplates : Templates :=
  mkTemplates (Some [Lit "started "; Field "Description"])
              (Some [Lit "finished "; Field "Description"]).

(** A configuration with one user, who has set a channel only. *)
Definition sampleConfig : Config :=
  mkConfig 60 "token" 1 "https://hooks.slack.com/services/T/B/X"
           (<["42" := mkPayload "#dev" "" "" "" ""]> ∅) sampleTemplates.

Definition sampleActivity : Activity := mkActivity 42 "writing proofs".

(** A network on which every request is answered with the given status. *)
Definition answering (code : Z) (status : string) :
    list Request -> Request -> result Response :=
  fun _ _ => Ok (mkResponse "HTTP/1.1" status code).

(** A network that cannot be reached. *)
Definition unreachable : list Request -> Request -> result Response :=
  fun _ _ => Err "dial tcp: connection refused".

(** The state of a process that has just started, in an empty directory,
    with the given configuration loaded. *)
Definition initial (net : list Request -> Request -> result Response) (c : Config) : State :=
  mkState ∅ ∅ ∅ [] [] [] net c None.

End Reference.

(** ** Sample states and files for the reference instance *)
Module Samples.

Import Reference.


(** A process started in an empty directory in which [path] cannot be
    created. *)
Definition lockedDirectory (path : string) : State :=
  mkState ∅ ∅ {[path]} [] [] [] unreachable zeroConfig None.





(** The sample configuration with a line feed in its webhook URL. *)
Definition badUrlConfig : Config :=
  set_WebhookURL ("https://hooks.slack.com/services/T" +:+ String Json.newline "B")
                 sampleConfig.

End Samples.

(** ** The earlier revision of the program

    The revision of the program without the [init] command declares
    [Payload] with the tag [json:text] on [Text], without [omitempty]; its
    [reverseMergeDefault], [notify] and callbacks are those above. *)
Module Legacy.

Definition marshalPayload (p : Payload) : Json.json :=
  Json.JObj ([("channel", Json.JStr (Channel p))]
             ++ omitEmpty "icon_emoji" (IconEmoji p)
             ++ omitEmpty "icon_url" (IconUrl p)
             ++ [("username", Json.JStr (Username p));
                 ("text", Json.JStr (Text p))])%list.

End Legacy.

(** ** Vocabulary of the properties *)

(** The events the polling loop of [toggl.NewHook] raises, and what it does
    with each: it calls [onStart] or [onStop], one call after the other. *)
Inductive Event : Type :=
| Start (a : Activity)
| Stop (a : Activity).

Definition handle `{Externals} (e : Event) : M unit :=
  match e with
  | Start a => onStart a
  | Stop a => onStop a
  end.

Fixpoint run `{Externals} (events : list Event) : M unit :=
  match events with
  | [] => ret tt
  | e :: rest => bind (handle e) (fun _ => run rest)
  end.

(** The request [notify] builds for a finalised payload. *)
Definition requestFor `{Externals} (c : Config) (p : Payload) : result Request :=
  match http_NewRequest "POST" (WebhookURL c) (Json.compact (marshalPayload p)) with
  | Ok req => Ok (addContentType "application/json" req)
  | Err e => Err e
  end.

(** The two lines [notify] logs around a delivery. *)
Definition requestLine (req : Request) : string :=
  ReqProto req +:+ " " +:+ Method req +:+ " " +:+ Host req +:+ endl.
Definition responseLine (resp : Response) : string :=
  RespProto resp +:+ " " +:+ Status resp +:+ endl.
Definition errorLine (e : string) : string :=
  "ERROR[toggl2slack]: " +:+ " " +:+ e +:+ endl.

(** The state after [notify] has logged [lines] and handed [req] to the
    client. *)
Definition afterDelivery `{Externals} (req : Request) (lines : list string) (s : State) : State :=
  mkState (files s) (unreadable s) (unwritable s) (stdout s) (logged s ++ lines)
          (sent s ++ [req]) (network s) (config s) (err s).

(** What a callback does with the error [notify] returned: it is assigned to
    [err], and logged when it is not [nil]. *)
Definition report `{Externals} (e : error) : M unit :=
  bind (put_err e) (fun _ =>
    match e with
    | Some msg => logError msg
    | None => ret tt
    end).

(** The activity an event carries and the template of the configuration
    its callback passes to [notify]. *)
Definition activityOf (e : Event) : Activity :=
  match e with
  | Start a => a
  | Stop a => a
  end.

Definition templateOf `{Externals} (c : Config) (e : Event) : option Template :=
  match e with
  | Start _ => Started (templates c)
  | Stop _ => Finished (templates c)
  end.

(** A request is a notification of the stored configuration [c] when it was
    built for the finalisation of a payload stored in [c], with the text the
    template of an event renders for the activity of that event. *)
Definition notificationOf `{Externals} (c : Config) (req : Request) : Prop :=
  exists e tm p p',
    Users c !! Itoa (UserId (activityOf e)) = Some p /\
    templateOf c e = Some tm /\
    reverseMergeDefault (set_Text (template_Execute tm (activityOf e)) p) = Ret p' /\
    Text p' = template_Execute tm (activityOf e) /\
    requestFor c p' = Ok req.

(** A status code of the success class. *)
Definition is2xx (code : Z) : bool := (200 <=? code) && (code <? 300).

(** Canonical decimal numerals: digits only after an optional minus sign,
    no leading zero except for the numeral of zero itself, which has no
    sign. *)
Fixpoint allDigits (s : string) : bool :=
  match s with
  | EmptyString => true
  | String c r => Json.isDigit c && allDigits r
  end.

Definition unsignedDecimal (s : string) : bool :=
  match s with
  | EmptyString => false
  | String c r =>
      Json.isDigit c && allDigits r && (negb (Ascii.eqb c "0"%char) || String.eqb r "")
  end.

Definition decimal (s : string) : bool :=
  match s with
  | String "-"%char r => unsignedDecimal r && negb (String.eqb r "0")
  | _ => unsignedDecimal s
  end.

(** The integer a numeral stands for. *)
Definition readDecimal (s : string) : option Z :=
  match s with
  | String "-"%char r => option_map Z.opp (Json.digitsValue 0 r)
  | _ => Json.digitsValue 0 s
  end.

Definition hasKey (k : string) (j : Json.json) : bool :=
  existsb (String.eqb k) (Json.keys j).

(** The text [generateConfig] is expected to write, line by line. *)
Definition quoted (s : string) : string := String Json.dquote (s +:+ String Json.dquote "").

Definition defaultConfigText : string :=
  Json.join endl
    ["{";
     "    " +:+ quoted "interval" +:+ ": 60,";
     "    " +:+ quoted "toggl_token" +:+ ": " +:+ quoted "YOUR_TOGGL_TOKEN" +:+ ",";
     "    " +:+ quoted "dashboard_id" +:+ ": 0,";
     "    " +:+ quoted "webhook_url" +:+ ": "
            +:+ quoted "https://hooks.slack.com/services/..." +:+ ",";
     "    " +:+ quoted "users" +:+ ": {";
     "        " +:+ quoted "TOGGL_USER_ID" +:+ ": {";
     "            " +:+ quoted "channel" +:+ ": " +:+ quoted "#general" +:+ ",";
     "            " +:+ quoted "username" +:+ ": " +:+ quoted "toggl2slack";
     "        }";
     "    },";
     "    " +:+ quoted "templates" +:+ ": {";
     "        " +:+ quoted "finished" +:+ ": " +:+ quoted "finished {{.Description}}" +:+ ",";
     "        " +:+ quoted "started" +:+ ": " +:+ quoted "started {{.Description}}";
     "    }";
     "}"].

(** A request as [notify] makes them for the configuration [c]: a POST of
    JSON to the webhook of [c]. *)
Definition webhookPost `{Externals} (c : Config) (req : Request) : Prop :=
  Method req = "POST" /\ URL req = WebhookURL c /\
  ContentType req = "application/json" /\ ReqProto req = "HTTP/1.1".




(** * Properties *)

Section Properties.
Context `{Externals}.

Import Json.

(** ** Payload finalisation *)

Lemma eqb_empty_true (s : string) : String.eqb s "" = true <-> s = "".
Proof. apply String.eqb_eq. Qed.

Lemma eqb_empty_false (s : string) : String.eqb s "" = false <-> s <> "".
Proof. apply String.eqb_neq. Qed.

Ltac empty_cases p :=
  destruct p as [ch em url un tx]; cbn [Channel IconEmoji IconUrl Username Text] in *;
  destruct (String.eqb ch "") eqn:Ech;
  destruct (String.eqb un "") eqn:Eun;
  destruct (String.eqb em "") eqn:Eem;
  destruct (String.eqb url "") eqn:Eurl.

(** What [reverseMergeDefault] returns, in closed form. *)
Lemma reverseMergeDefault_spec (p : Payload) :
  reverseMergeDefault p =
  if negb (String.eqb (IconEmoji p) "") && negb (String.eqb (IconUrl p) "")
  then Panic bothIconsMessage
  else Ret (mkPayload
              (if String.eqb (Channel p) "" then defaultChannel else Channel p)
              (IconEmoji p)
              (if String.eqb (IconEmoji p) "" && String.eqb (IconUrl p) ""
               then defaultIconUrl else IconUrl p)
              (if String.eqb (Username p) "" then defaultUsername else Username p)
              (Text p)).
Proof.
  empty_cases p; unfold reverseMergeDefault;
    repeat (cbn; rewrite ?Ech, ?Eun, ?Eem, ?Eurl); reflexivity.
Qed.

(** On a payload with at most one icon field set the result is a payload. *)
Lemma reverseMergeDefault_returns (p : Payload) :
  IconEmoji p = "" \/ IconUrl p = "" -> exists p', reverseMergeDefault p = Ret p'.
Proof.
  intros Hone. rewrite reverseMergeDefault_spec.
  destruct Hone as [-> | ->]; cbn; rewrite ?andb_false_r; eauto.
Qed.

Lemma reverseMergeDefault_panics (p : Payload) :
  IconEmoji p <> "" -> IconUrl p <> "" -> reverseMergeDefault p = Panic bothIconsMessage.
Proof.
  intros He Hu. rewrite reverseMergeDefault_spec.
  apply eqb_empty_false in He, Hu. rewrite He, Hu. reflexivity.
Qed.

(** A returned payload has a channel, a user name and exactly one icon. *)
Lemma reverseMergeDefault_finalised (p p' : Payload) :
  reverseMergeDefault p = Ret p' ->
  Channel p' <> "" /\ Username p' <> "" /\
  ((IconEmoji p' = "" /\ IconUrl p' <> "") \/ (IconEmoji p' <> "" /\ IconUrl p' = "")).
Proof.
  rewrite reverseMergeDefault_spec. empty_cases p; cbn; intros Hr;
    try discriminate Hr; injection Hr as <-; cbn;
    repeat match goal with
           | E : String.eqb _ "" = true |- _ => apply eqb_empty_true in E; subst
           | E : String.eqb _ "" = false |- _ => apply eqb_empty_false in E
           end;
    repeat split; try discriminate; try assumption;
    first [ left; split; [reflexivity | first [assumption | discriminate]]
          | right; split; [assumption | reflexivity] ].
Qed.

(** C2: a payload whose icon emoji and icon URL are both non-empty makes
    [reverseMergeDefault] panic with the message about the two icons, and
    [notify], which finalises the payload before it builds the request,
    panics with it and leaves the state as it was: nothing is logged and no
    request is sent.  A payload with at most one of the two fields set is
    never rejected: [reverseMergeDefault] returns a payload. *)
Theorem both_icons_fail_fast (p : Payload) :
  (IconEmoji p <> "" /\ IconUrl p <> "" ->
   reverseMergeDefault p = Panic "Do not specify both icon_emoji and icon_url" /\
   forall tm a s, notify (Some tm) a p s
                  = (Panic "Do not specify both icon_emoji and icon_url", s)) /\
  (IconEmoji p = "" \/ IconUrl p = "" -> exists p', reverseMergeDefault p = Ret p').
Proof.
  split.
  - intros [He Hu]. split.
    + now apply reverseMergeDefault_panics.
    + intros tm a s. unfold notify, bind, lift.
      rewrite (reverseMergeDefault_panics (set_Text (template_Execute tm a) p)); auto.
  - apply reverseMergeDefault_returns.
Qed.

(** C4: [reverseMergeDefault] is idempotent: when one application returns a
    payload, a second application to that payload returns it unchanged. *)
Theorem reverseMergeDefault_idempotent (p p' : Payload) :
  reverseMergeDefault p = Ret p' -> reverseMergeDefault p' = Ret p'.
Proof.
  intros Hr. destruct (reverseMergeDefault_finalised p p' Hr) as (Hc & Hn & Hi).
  rewrite reverseMergeDefault_spec.
  apply eqb_empty_false in Hc, Hn. rewrite Hc, Hn.
  destruct p' as [ch em url un tx]; cbn in *.
  destruct Hi as [[-> Hu] | [He ->]].
  - apply eqb_empty_false in Hu. rewrite Hu. reflexivity.
  - apply eqb_empty_false in He. rewrite He. reflexivity.
Qed.

(** A payload with an emoji only: filled in once, unchanged the second
    time. *)
Lemma reverseMergeDefault_idempotent_witness :
  reverseMergeDefault (mkPayload "" ":clock1:" "" "" "hello")
  = Ret (mkPayload "#general" ":clock1:" "" "Toggl" "hello") /\
  reverseMergeDefault (mkPayload "#general" ":clock1:" "" "Toggl" "hello")
  = Ret (mkPayload "#general" ":clock1:" "" "Toggl" "hello").
Proof.
  split; [reflexivity |].
  apply (reverseMergeDefault_idempotent (mkPayload "" ":clock1:" "" "" "hello")).
  reflexivity.
Defined.

(** C5: in the payload [reverseMergeDefault] returns, an empty channel has
    become [#general] and a non-empty one is unchanged; an empty user name
    has become [Toggl] and a non-empty one is unchanged; and when icon emoji
    and icon URL were both empty the icon URL is the built-in image URL and
    the icon emoji is still empty. *)
Theorem reverseMergeDefault_defaults (p p' : Payload) :
  reverseMergeDefault p = Ret p' ->
  (Channel p = "" -> Channel p' = "#general") /\
  (Channel p <> "" -> Channel p' = Channel p) /\
  (Username p = "" -> Username p' = "Toggl") /\
  (Username p <> "" -> Username p' = Username p) /\
  (IconEmoji p = "" -> IconUrl p = "" ->
   IconUrl p' = "http://blog.toggl.com/wp-content/uploads/2015/04/toggl-button-light.png"
   /\ IconEmoji p' = "").
Proof.
  rewrite reverseMergeDefault_spec.
  destruct (negb (IconEmoji p =? "") && negb (IconUrl p =? ""))%string; [discriminate |].
  intros Hr; injection Hr as <-; cbn.
  split; [| split; [| split; [| split]]].
  - intros ->. reflexivity.
  - intros Hc. apply eqb_empty_false in Hc. rewrite Hc. reflexivity.
  - intros ->. reflexivity.
  - intros Hn. apply eqb_empty_false in Hn. rewrite Hn. reflexivity.
  - intros He Hu. rewrite He, Hu. split; reflexivity.
Qed.

(** The payload with nothing set but a text. *)
Lemma reverseMergeDefault_defaults_witness :
  reverseMergeDefault (mkPayload "" "" "" "" "hi")
  = Ret (mkPayload "#general" "" defaultIconUrl "Toggl" "hi") /\
  Channel (mkPayload "#general" "" defaultIconUrl "Toggl" "hi") = "#general" /\
  Username (mkPayload "#general" "" defaultIconUrl "Toggl" "hi") = "Toggl" /\
  IconUrl (mkPayload "#general" "" defaultIconUrl "Toggl" "hi")
  = "http://blog.toggl.com/wp-content/uploads/2015/04/toggl-button-light.png" /\
  IconEmoji (mkPayload "#general" "" defaultIconUrl "Toggl" "hi") = "".
Proof.
  pose proof (reverseMergeDefault_defaults (mkPayload "" "" "" "" "hi")
                (mkPayload "#general" "" defaultIconUrl "Toggl" "hi") eq_refl)
    as (Hc & _ & Hn & _ & Hi).
  destruct (Hi eq_refl eq_refl) as [Hu He].
  exact (conj eq_refl (conj (Hc eq_refl) (conj (Hn eq_refl) (conj Hu He)))).
Defined.

(** ** Delivery *)

Lemma requestFor_eq (c : Config) (p : Payload) :
  requestFor c p =
  match http_NewRequest "POST" (WebhookURL c) (compact (marshalPayload p)) with
  | Ok req => Ok (addContentType "application/json" req)
  | Err e => Err e
  end.
Proof. reflexivity. Qed.

(** [notify] on a template that is not [nil], case by case. *)
Lemma notify_spec (tm : Template) (a : Activity) (p : Payload) (s : State) :
  notify (Some tm) a p s =
  match reverseMergeDefault (set_Text (template_Execute tm a) p) with
  | Ret p' =>
      match requestFor (config s) p' with
      | Err e => (Ret (Some e), s)
      | Ok req =>
          match network s (sent s) req with
          | Err e => (Ret (Some e), afterDelivery req [requestLine req] s)
          | Ok resp => (Ret None, afterDelivery req [requestLine req; responseLine resp] s)
          end
      end
  | Panic msg => (Panic msg, s)
  | Exit code => (Exit code, s)
  end.
Proof.
  unfold notify, bind, lift.
  destruct (reverseMergeDefault _) as [p' | msg | code]; try reflexivity.
  unfold get_config. rewrite requestFor_eq.
  destruct (http_NewRequest _ _ _) as [req | e]; [| reflexivity].
  unfold log_Print, client_Do; cbn.
  destruct (network s (sent s) _) as [resp | e]; cbn;
    unfold afterDelivery, requestLine, responseLine, ret; cbn;
    rewrite <- ?app_assoc; reflexivity.
Qed.

Lemma notify_nil (a : Activity) (p : Payload) (s : State) :
  notify None a p s = (Panic nilDereference, s).
Proof. reflexivity. Qed.

(** ** Dispatch *)

Lemma onStart_eq (a : Activity) (s : State) :
  onStart a s =
  match Users (config s) !! Itoa (UserId a) with
  | Some p => bind (notify (Started (templates (config s))) a p) report s
  | None => (Ret tt, s)
  end.
Proof.
  unfold onStart, bind at 1, get_config.
  destruct (Users (config s) !! Itoa (UserId a)); reflexivity.
Qed.

Lemma onStop_eq (a : Activity) (s : State) :
  onStop a s =
  match Users (config s) !! Itoa (UserId a) with
  | Some p => bind (notify (Finished (templates (config s))) a p) report s
  | None => (Ret tt, s)
  end.
Proof.
  unfold onStop, bind at 1, get_config.
  destruct (Users (config s) !! Itoa (UserId a)); reflexivity.
Qed.

(** Both callbacks at once. *)
Lemma handle_eq (e : Event) (s : State) :
  handle e s =
  match Users (config s) !! Itoa (UserId (activityOf e)) with
  | Some p => bind (notify (templateOf (config s) e) (activityOf e) p) report s
  | None => (Ret tt, s)
  end.
Proof. destruct e as [a | a]; [apply onStart_eq | apply onStop_eq]. Qed.

(** [report] touches [err] and the log only, and logs an error only. *)
Lemma report_frame (t : option Template) (a : Activity) (p : Payload) (s : State) :
  config (snd (bind (notify t a p) report s)) = config (snd (notify t a p s)) /\
  sent (snd (bind (notify t a p) report s)) = sent (snd (notify t a p s)) /\
  logged (snd (bind (notify t a p) report s)) =
  match notify t a p s with
  | (Ret (Some e), s') => logged s' ++ [errorLine e]
  | (_, s') => logged s'
  end.
Proof.
  unfold bind. destruct (notify t a p s) as [[[e |] | msg | code] s']; repeat split.
Qed.

(** C1 (as the code has it): for an event of a user of the mapping whose
    payload finalises and whose request can be built, [notify] returns the
    error of [client.Do] when the POST fails at the network level, and the
    callback then logs it on an ERROR line; when the POST completes,
    [notify] logs the status line of the response and returns [nil] whatever
    the status is, a status outside the 2xx class included, and the callback
    logs no error. *)
Theorem notify_fails_on_transport_errors_only
    (e : Event) (p p' : Payload) (tm : Template) (req : Request) (s : State) :
  Users (config s) !! Itoa (UserId (activityOf e)) = Some p ->
  templateOf (config s) e = Some tm ->
  reverseMergeDefault (set_Text (template_Execute tm (activityOf e)) p) = Ret p' ->
  requestFor (config s) p' = Ok req ->
  match network s (sent s) req with
  | Err msg =>
      fst (notify (Some tm) (activityOf e) p s) = Ret (Some msg) /\
      logged (snd (handle e s)) = logged s ++ [requestLine req; errorLine msg]
  | Ok resp =>
      fst (notify (Some tm) (activityOf e) p s) = Ret nil_error /\
      logged (snd (handle e s)) = logged s ++ [requestLine req; responseLine resp]
  end.
Proof.
  intros Hu Ht Hp Hr. rewrite handle_eq, Hu, Ht.
  destruct (report_frame (Some tm) (activityOf e) p s) as (_ & _ & ->).
  rewrite notify_spec, Hp, Hr.
  destruct (network s (sent s) req) as [resp | msg]; cbn; split; try reflexivity.
  rewrite <- app_assoc. reflexivity.
Qed.

(** When the request cannot be built, [notify] returns that error before
    anything is logged or sent. *)
Lemma notify_bad_url (tm : Template) (a : Activity) (p p' : Payload) (msg : string) (s : State) :
  reverseMergeDefault (set_Text (template_Execute tm a) p) = Ret p' ->
  requestFor (config s) p' = Err msg ->
  notify (Some tm) a p s = (Ret (Some msg), s).
Proof. intros Hp Hr. rewrite notify_spec, Hp, Hr. reflexivity. Qed.

(** What a call of [notify] adds to the requests sent: nothing, or the one
    request built for the finalised payload. *)
Lemma notify_sent (t : option Template) (a : Activity) (p : Payload) (s : State) :
  sent (snd (notify t a p s)) = sent s \/
  exists tm p' req,
    t = Some tm /\
    reverseMergeDefault (set_Text (template_Execute tm a) p) = Ret p' /\
    requestFor (config s) p' = Ok req /\
    sent (snd (notify t a p s)) = sent s ++ [req].
Proof.
  destruct t as [tm |]; [| left; reflexivity].
  rewrite notify_spec.
  destruct (reverseMergeDefault _) as [p' | msg | code] eqn:Hp; try (left; reflexivity).
  destruct (requestFor (config s) p') as [req | e] eqn:Hr; [| left; reflexivity].
  right. exists tm, p', req.
  destruct (network s (sent s) req); cbn; auto.
Qed.

Lemma notify_config (t : option Template) (a : Activity) (p : Payload) (s : State) :
  config (snd (notify t a p s)) = config s.
Proof.
  destruct t as [tm |]; [| reflexivity].
  rewrite notify_spec.
  destruct (reverseMergeDefault _); try reflexivity.
  destruct (requestFor _ _); try reflexivity.
  destruct (network _ _ _); reflexivity.
Qed.

Lemma callback_sent (t : option Template) (a : Activity) (p : Payload) (s : State) :
  sent (snd (bind (notify t a p) report s)) = sent s \/
  exists req, sent (snd (bind (notify t a p) report s)) = sent s ++ [req].
Proof.
  destruct (report_frame t a p s) as (_ & -> & _).
  destruct (notify_sent t a p s) as [Hs | (tm & p' & req & _ & _ & _ & Hs)];
    [left | right; exists req]; exact Hs.
Qed.

(** C3: a start or stop event whose user identifier is not a key of the
    users mapping leaves the whole state as it was, so nothing is sent and
    nothing is logged, and the callback returns normally; for an identifier
    that is a key, the callback is one call of [notify] with the template of
    the event and the payload stored under that key, followed by the report
    of its result, and it adds at most one request to those sent. *)
Theorem dispatch_by_user_mapping (a : Activity) (s : State) :
  match Users (config s) !! Itoa (UserId a) with
  | None => onStart a s = (Ret tt, s) /\ onStop a s = (Ret tt, s)
  | Some p =>
      onStart a s = bind (notify (Started (templates (config s))) a p) report s /\
      onStop a s = bind (notify (Finished (templates (config s))) a p) report s /\
      (sent (snd (onStart a s)) = sent s \/
       exists req, sent (snd (onStart a s)) = sent s ++ [req]) /\
      (sent (snd (onStop a s)) = sent s \/
       exists req, sent (snd (onStop a s)) = sent s ++ [req])
  end.
Proof.
  rewrite onStart_eq, onStop_eq.
  destruct (Users (config s) !! Itoa (UserId a)) as [p |]; [| split; reflexivity].
  split; [reflexivity |]. split; [reflexivity |].
  split; apply callback_sent.
Qed.

(** ** The stored configuration is read only *)

Lemma handle_config (e : Event) (s : State) : config (snd (handle e s)) = config s.
Proof.
  rewrite handle_eq.
  destruct (Users (config s) !! Itoa (UserId (activityOf e))) as [p |]; [| reflexivity].
  destruct (report_frame (templateOf (config s) e) (activityOf e) p s) as (-> & _).
  apply notify_config.
Qed.

Lemma run_cons (e : Event) (rest : list Event) (s : State) :
  run (e :: rest) s =
  match handle e s with
  | (Ret _, s') => run rest s'
  | (Panic msg, s') => (Panic msg, s')
  | (Exit code, s') => (Exit code, s')
  end.
Proof. reflexivity. Qed.

Lemma run_config (events : list Event) (s : State) :
  config (snd (run events s)) = config s.
Proof.
  revert s. induction events as [| e rest IH]; intros s; [reflexivity |].
  rewrite run_cons. pose proof (handle_config e s) as Hc.
  destruct (handle e s) as [[u | msg | code] s']; cbn in Hc |- *; [| assumption ..].
  rewrite IH. exact Hc.
Qed.

Lemma reverseMergeDefault_Text (p p' : Payload) :
  reverseMergeDefault p = Ret p' -> Text p' = Text p.
Proof.
  rewrite reverseMergeDefault_spec.
  destruct (negb _ && negb _); [discriminate |]. intros Hr; injection Hr as <-. reflexivity.
Qed.

Lemma handle_sent (e : Event) (s : State) (req : Request) :
  req ∈ sent (snd (handle e s)) -> req ∈ sent s \/ notificationOf (config s) req.
Proof.
  rewrite handle_eq.
  destruct (Users (config s) !! Itoa (UserId (activityOf e))) as [p |] eqn:Hu; auto.
  destruct (report_frame (templateOf (config s) e) (activityOf e) p s) as (_ & -> & _).
  destruct (notify_sent (templateOf (config s) e) (activityOf e) p s)
    as [-> | (tm & p' & r & Ht & Hp & Hr & ->)]; auto.
  rewrite elem_of_app, list_elem_of_singleton. intros [Hin | ->]; auto.
  right. exists e, tm, p, p'. repeat split; auto.
  apply reverseMergeDefault_Text in Hp. exact Hp.
Qed.

Lemma run_sent (events : list Event) (s : State) (req : Request) :
  req ∈ sent (snd (run events s)) -> req ∈ sent s \/ notificationOf (config s) req.
Proof.
  revert s. induction events as [| e rest IH]; intros s; [auto |].
  rewrite run_cons.
  pose proof (handle_config e s) as Hc. pose proof (handle_sent e s req) as Hs.
  destruct (handle e s) as [[u | msg | code] s']; cbn in Hc, Hs |- *; auto.
  intros Hin. apply IH in Hin. rewrite Hc in Hin. destruct Hin; auto.
Qed.

(** C8: [notify] finalises and fills in its own copy of the payload: after
    a call, however it ends, the stored [Config] (the users mapping with
    every stored payload, and every other field) is what it was; so it is
    after any sequence of start and stop events; and every request such a
    sequence sends was built from a payload as it is stored in that
    unchanged configuration, with the text its template rendered for that
    event's activity. *)
Theorem notifications_leave_config_unchanged :
  (forall t a p s, config (snd (notify t a p s)) = config s) /\
  (forall events s, config (snd (run events s)) = config s) /\
  (forall events s req,
      req ∈ sent (snd (run events s)) ->
      req ∈ sent s \/ notificationOf (config s) req).
Proof.
  split; [exact notify_config |]. split; [exact run_config | exact run_sent].
Qed.

(** ** The wire message *)

Lemma omitEmpty_keys (name v k : string) :
  k ∈ map fst (omitEmpty name v) <-> k = name /\ v <> "".
Proof.
  unfold omitEmpty. destruct (String.eqb v "") eqn:E.
  - apply eqb_empty_true in E. cbn. rewrite elem_of_nil. tauto.
  - apply eqb_empty_false in E. cbn. rewrite list_elem_of_singleton. tauto.
Qed.

(** C7 (as the code has it): the wire message of a payload is a JSON object
    in which [channel] and [username] are always present, [icon_emoji],
    [icon_url] and [text] are present exactly when they are not empty, and
    no other field appears; its compact text is the body of the request. *)
Theorem wire_message_fields (p : Payload) (k : string) :
  (k ∈ keys (marshalPayload p) <->
   k = "channel" \/ k = "username" \/
   (k = "icon_emoji" /\ IconEmoji p <> "") \/
   (k = "icon_url" /\ IconUrl p <> "") \/
   (k = "text" /\ Text p <> "")) /\
  (forall c req, requestFor c p = Ok req -> Body req = compact (marshalPayload p)).
Proof.
  split.
  - unfold marshalPayload, keys. rewrite !map_app, !elem_of_app, !omitEmpty_keys.
    cbn [map fst].
    rewrite (list_elem_of_singleton k "channel"), (list_elem_of_singleton k "username").
    tauto.
  - intros c req. rewrite requestFor_eq. unfold http_NewRequest.
    destruct (url_Host _); [| discriminate]. intros Hr; injection Hr as <-. reflexivity.
Qed.

(** In the earlier revision [text] is always present. *)
Lemma legacy_wire_message_fields (p : Payload) (k : string) :
  k ∈ keys (Legacy.marshalPayload p) <->
  k = "channel" \/ k = "username" \/ k = "text" \/
  (k = "icon_emoji" /\ IconEmoji p <> "") \/
  (k = "icon_url" /\ IconUrl p <> "").
Proof.
  unfold Legacy.marshalPayload, keys. rewrite !map_app, !elem_of_app, !omitEmpty_keys.
  cbn [map fst].
  rewrite (list_elem_of_singleton k "channel"), elem_of_cons, (list_elem_of_singleton k "text").
  tauto.
Qed.

(** ** The lookup key *)

Lemma digitChar_spec (d : Z) :
  0 <= d < 10 ->
  isDigit (digitChar d) = true /\
  Z.of_N (N_of_ascii (digitChar d) - 48) = d /\
  (0 < d -> Ascii.eqb (digitChar d) "0" = false).
Proof.
  intros Hd.
  assert (d = 0 \/ d = 1 \/ d = 2 \/ d = 3 \/ d = 4 \/ d = 5 \/ d = 6 \/ d = 7 \/ d = 8 \/ d = 9)
    as Hcases by lia.
  repeat (destruct Hcases as [-> | Hcases]); try subst d;
    (split; [reflexivity | split; [reflexivity | intros; first [reflexivity | lia]]]).
Qed.

Lemma digitFuel_enough (n : Z) : 0 <= n -> n < 10 ^ Z.of_nat (digitFuel n).
Proof.
  intros Hn. unfold digitFuel.
  rewrite Nat2Z.inj_succ, Z2Nat.id by apply Z.log2_nonneg.
  destruct (Z.eq_dec n 0) as [-> | Hz]; [reflexivity |].
  assert (0 < n) as Hpos by lia.
  pose proof (Z.log2_spec n Hpos) as [_ Hlt].
  assert (2 ^ Z.succ (Z.log2 n) <= 10 ^ Z.succ (Z.log2 n)) by (apply Z.pow_le_mono_l; lia).
  lia.
Qed.

(** The digits of a positive number start with a digit other than zero. *)
Lemma formatDigits_shape (fuel : nat) :
  forall n acc, 0 < n -> n < 10 ^ Z.of_nat fuel -> allDigits acc = true ->
  exists c r, formatDigits fuel n acc = String c r /\
              isDigit c = true /\ Ascii.eqb c "0" = false /\ allDigits r = true.
Proof.
  induction fuel as [| f IH]; intros n acc Hpos Hlt Hacc.
  - cbn in Hlt. lia.
  - cbn [formatDigits]. destruct (n <? 10) eqn:Hsmall.
    + apply Z.ltb_lt in Hsmall.
      destruct (digitChar_spec n) as (Hd & _ & Hnz); [lia |].
      exists (digitChar n), acc. auto.
    + apply Z.ltb_ge in Hsmall.
      rewrite Nat2Z.inj_succ, Z.pow_succ_r in Hlt by lia.
      apply IH.
      * apply Z.div_str_pos. lia.
      * apply Z.div_lt_upper_bound; lia.
      * cbn [allDigits].
        destruct (digitChar_spec (n mod 10)) as (Hd & _); [apply Z.mod_pos_bound; lia |].
        rewrite Hd, Hacc. reflexivity.
Qed.

(** Reading the digits written in front of [acc] leaves the number read. *)
Lemma formatDigits_value (fuel : nat) :
  forall n acc, 0 <= n -> n < 10 ^ Z.of_nat fuel ->
  digitsValue 0 (formatDigits fuel n acc) = digitsValue n acc.
Proof.
  induction fuel as [| f IH]; intros n acc Hpos Hlt.
  - cbn in Hlt. assert (n = 0) as -> by lia. reflexivity.
  - cbn [formatDigits]. destruct (n <? 10) eqn:Hsmall.
    + apply Z.ltb_lt in Hsmall.
      destruct (digitChar_spec n) as (Hd & Hv & _); [lia |].
      cbn [digitsValue]. rewrite Hd, Hv. reflexivity.
    + apply Z.ltb_ge in Hsmall.
      rewrite Nat2Z.inj_succ, Z.pow_succ_r in Hlt by lia.
      rewrite IH.
      * destruct (digitChar_spec (n mod 10)) as (Hd & Hv & _); [apply Z.mod_pos_bound; lia |].
        cbn [digitsValue]. rewrite Hd, Hv. f_equal.
        pose proof (Z.div_mod n 10). lia.
      * apply Z.div_pos; lia.
      * apply Z.div_lt_upper_bound; lia.
Qed.

Lemma unsigned_Itoa (n : Z) :
  0 <= n ->
  unsignedDecimal (formatDigits (digitFuel n) n "") = true /\
  (0 < n -> exists c r, formatDigits (digitFuel n) n "" = String c r /\
                        isDigit c = true /\ Ascii.eqb c "0" = false).
Proof.
  intros Hn. destruct (Z.eq_dec n 0) as [-> | Hz].
  - split; [reflexivity | lia].
  - destruct (formatDigits_shape (digitFuel n) n "") as (c & r & -> & Hc & Hnz & Hr);
      [lia | apply digitFuel_enough; lia | reflexivity |].
    split.
    + cbn. rewrite Hc, Hr, Hnz. reflexivity.
    + intros _. exists c, r. auto.
Qed.

Lemma Itoa_decimal (i : Z) : decimal (Itoa i) = true.
Proof.
  unfold Itoa. destruct (i <? 0) eqn:Hneg.
  - apply Z.ltb_lt in Hneg.
    destruct (unsigned_Itoa (- i)) as [Hdec Hshape]; [lia |].
    destruct Hshape as (c & r & Heq & Hc & Hnz); [lia |].
    cbn [decimal]. rewrite Hdec. rewrite Heq.
    cbn. rewrite Hnz. reflexivity.
  - apply Z.ltb_ge in Hneg.
    destruct (unsigned_Itoa i Hneg) as [Hdec Hshape].
    destruct (Z.eq_dec i 0) as [-> | Hz]; [reflexivity |].
    destruct Hshape as (c & r & Heq & Hc & Hnz); [lia |].
    rewrite Heq in Hdec |- *. unfold decimal.
    destruct c as [[] [] [] [] [] [] [] []]; try exact Hdec; discriminate Hc.
Qed.

Lemma Itoa_value (i : Z) : readDecimal (Itoa i) = Some i.
Proof.
  unfold Itoa. destruct (i <? 0) eqn:Hneg.
  - apply Z.ltb_lt in Hneg. cbn [readDecimal].
    rewrite formatDigits_value; [| lia | apply digitFuel_enough; lia].
    cbn. f_equal. lia.
  - apply Z.ltb_ge in Hneg.
    assert (readDecimal (formatDigits (digitFuel i) i "")
            = digitsValue 0 (formatDigits (digitFuel i) i "")) as ->.
    { destruct (Z.eq_dec i 0) as [-> | Hz]; [reflexivity |].
      destruct (unsigned_Itoa i Hneg) as [_ Hshape].
      destruct Hshape as (c & r & -> & Hc & _); [lia |].
      unfold readDecimal.
      destruct c as [[] [] [] [] [] [] [] []]; try reflexivity; discriminate Hc. }
    rewrite formatDigits_value; [reflexivity | lia | apply digitFuel_enough; lia].
Qed.

(** C10: the callbacks look the user up under [strconv.Itoa] of the
    activity's user identifier: a request is sent only if that string is a
    key of the users mapping; the string is the canonical decimal numeral of
    the identifier; so a key that is not a canonical decimal numeral (one
    with a leading zero, or with a character that is not a digit) is never
    the key looked up, for any activity. *)
Theorem user_lookup_key_is_decimal (a : Activity) (s : State) :
  (sent (snd (onStart a s)) <> sent s \/ sent (snd (onStop a s)) <> sent s ->
   exists p, Users (config s) !! Itoa (UserId a) = Some p) /\
  decimal (Itoa (UserId a)) = true /\
  readDecimal (Itoa (UserId a)) = Some (UserId a) /\
  (forall k, decimal k = false -> Itoa (UserId a) <> k).
Proof.
  split; [| split; [apply Itoa_decimal | split; [apply Itoa_value |]]].
  - rewrite onStart_eq, onStop_eq.
    destruct (Users (config s) !! Itoa (UserId a)) as [p |]; [eauto |].
    intros [Hs | Hs]; contradiction Hs; reflexivity.
  - intros k Hk Heq. rewrite <- Heq, Itoa_decimal in Hk. discriminate.
Qed.

(** Distinct identifiers are looked up under distinct keys. *)
Lemma Itoa_injective (i j : Z) : Itoa i = Itoa j -> i = j.
Proof.
  intros Heq. pose proof (Itoa_value i) as Hi. rewrite Heq, Itoa_value in Hi. congruence.
Qed.

(** ** The configuration file *)

Lemma MarshalIndent_default : MarshalIndent defaultConfig "    " = Ok defaultConfigText.
Proof. vm_compute. reflexivity. Qed.

Lemma os_Stat_eq (path : string) (s : State) :
  os_Stat path s =
  (Ret (if decide (path ∈ unreadable s)
        then StatFailed ("stat " +:+ path +:+ ": permission denied")
        else match files s !! path with
             | Some _ => StatFound
             | None => StatNotExist
             end), s).
Proof. reflexivity. Qed.

(** [generateConfig] where a file exists already. *)
Lemma generateConfig_exists (flag : string) (s : State) :
  is_Some (files s !! configPath flag) ->
  generateConfig flag s = (Ret (Some "config.json already exists"), s).
Proof.
  intros [old Hold]. unfold generateConfig, bind. rewrite os_Stat_eq, Hold.
  destruct (decide _); reflexivity.
Qed.

(** The state after [generateConfig] has written [text] to [path]. *)
Lemma generateConfig_writes (flag : string) (s : State) :
  files s !! configPath flag = None ->
  configPath flag ∉ unreadable s ->
  configPath flag ∉ unwritable s ->
  generateConfig flag s =
  (Ret nil_error,
   mkState (<[configPath flag := defaultConfigText]> (files s)) (unreadable s) (unwritable s)
           (stdout s ++ [configPath flag +:+ " was generated" +:+ endl])
           (logged s) (sent s) (network s) (config s) (err s)).
Proof.
  intros Hnone Hr Hw. unfold generateConfig, bind.
  rewrite os_Stat_eq, Hnone, MarshalIndent_default.
  destruct (decide (configPath flag ∈ unreadable s)); [contradiction |].
  unfold ioutil_WriteFile.
  destruct (decide (configPath flag ∈ unwritable s)); [contradiction |].
  reflexivity.
Qed.

(** [generateConfig] changes the files only by creating the one at its
    path. *)
Lemma generateConfig_files (flag : string) (s : State) :
  files (snd (generateConfig flag s)) = files s \/
  (files s !! configPath flag = None /\
   files (snd (generateConfig flag s)) = <[configPath flag := defaultConfigText]> (files s)).
Proof.
  unfold generateConfig, bind. rewrite os_Stat_eq, MarshalIndent_default.
  destruct (decide (configPath flag ∈ unreadable s)); [left; reflexivity |].
  destruct (files s !! configPath flag) eqn:Hf; [left; reflexivity |].
  unfold ioutil_WriteFile.
  destruct (decide (configPath flag ∈ unwritable s)); [left; reflexivity |].
  right. split; reflexivity.
Qed.

(** C9: [generateConfig] fails with an error and leaves the state as it
    was, writing nothing, when a file exists at the target path; it changes
    the files only when no file exists there, and then only by creating the
    file at that path with the default configuration; and when no file
    exists there and the path can be read and written, it creates the file,
    prints that it was generated and returns [nil]. *)
Theorem generateConfig_creates_only_when_absent (flag : string) (s : State) :
  (is_Some (files s !! configPath flag) ->
   generateConfig flag s = (Ret (Some "config.json already exists"), s)) /\
  (files (snd (generateConfig flag s)) <> files s ->
   files s !! configPath flag = None /\
   files (snd (generateConfig flag s)) = <[configPath flag := defaultConfigText]> (files s)) /\
  (files s !! configPath flag = None ->
   configPath flag ∉ unreadable s -> configPath flag ∉ unwritable s ->
   fst (generateConfig flag s) = Ret nil_error /\
   files (snd (generateConfig flag s)) = <[configPath flag := defaultConfigText]> (files s) /\
   stdout (snd (generateConfig flag s))
   = stdout s ++ [configPath flag +:+ " was generated" +:+ endl]).
Proof.
  split; [apply generateConfig_exists |]. split.
  - intros Hchanged. destruct (generateConfig_files flag s) as [Hsame | Hnew]; [| exact Hnew].
    contradiction.
  - intros Hnone Hr Hw. rewrite (generateConfig_writes flag s Hnone Hr Hw). auto.
Qed.

(** The default text scanned back into a document. *)
Lemma parse_default :
  parse defaultConfigText =
  Some (JObj [("interval", JNum "60");
              ("toggl_token", JStr "YOUR_TOGGL_TOKEN");
              ("dashboard_id", JNum "0");
              ("webhook_url", JStr "https://hooks.slack.com/services/...");
              ("users", JObj [("TOGGL_USER_ID",
                               JObj [("channel", JStr "#general");
                                     ("username", JStr "toggl2slack")])]);
              ("templates", JObj [("finished", JStr "finished {{.Description}}");
                                  ("started", JStr "started {{.Description}}")])]).
Proof. vm_compute. reflexivity. Qed.

(** Decoding the default text: every field is stored, and the two template
    texts go through the parser of the template engine. *)
Lemma Unmarshal_default (st fi : Template) :
  template_Parse "started" "started {{.Description}}" = Ok st ->
  template_Parse "finished" "finished {{.Description}}" = Ok fi ->
  Unmarshal defaultConfigText zeroConfig =
  Ret (mkConfig 60 "YOUR_TOGGL_TOKEN" 0 "https://hooks.slack.com/services/..."
                (<["TOGGL_USER_ID" := mkPayload "#general" "" "" "toggl2slack" ""]> ∅)
                (mkTemplates (Some st) (Some fi)), nil_error).
Proof.
  intros Hst Hfi. vm_compute. vm_compute in Hst, Hfi. rewrite Hst, Hfi. reflexivity.
Qed.

Lemma loadConfig_eq (path : string) (s : State) :
  loadConfig path s =
  if decide (path ∈ unreadable s) then
    (Ret (Err ("open " +:+ path +:+ ": permission denied")), s)
  else
    match files s !! path with
    | None => (Ret (Err ("open " +:+ path +:+ ": no such file or directory")), s)
    | Some text =>
        match Unmarshal text zeroConfig with
        | Ret (_, Some e) => (Ret (Err e), s)
        | Ret (c, None) => (Ret (Ok c), s)
        | Panic msg => (Panic msg, s)
        | Exit code => (Exit code, s)
        end
    end.
Proof.
  unfold loadConfig, bind, readFile, lift.
  destruct (decide (path ∈ unreadable s)); [reflexivity |].
  destruct (files s !! path) as [text |]; [| reflexivity].
  destruct (Unmarshal text zeroConfig) as [[c [e |]] | msg | code]; reflexivity.
Qed.

(** C6: where no file exists at the target path, and the path can be
    written and read, [generateConfig] succeeds and [loadConfig] on the file
    it wrote returns a [Config] with the interval 60, the token and the
    webhook URL of the default configuration, and the templates parsed from
    the two default template texts written to the file, provided the
    template engine parses these two texts.  The dashboard identifier and
    the users mapping come back as written too. *)
Theorem default_config_round_trip (flag : string) (s : State) (st fi : Template) :
  files s !! configPath flag = None ->
  configPath flag ∉ unreadable s ->
  configPath flag ∉ unwritable s ->
  template_Parse "started" "started {{.Description}}" = Ok st ->
  template_Parse "finished" "finished {{.Description}}" = Ok fi ->
  fst (generateConfig flag s) = Ret nil_error /\
  files (snd (generateConfig flag s)) !! configPath flag = Some defaultConfigText /\
  exists c,
    fst (loadConfig (configPath flag) (snd (generateConfig flag s))) = Ret (Ok c) /\
    Interval c = 60 /\ Interval c = Interval defaultConfig /\
    TogglToken c = "YOUR_TOGGL_TOKEN" /\ TogglToken c = TogglToken defaultConfig /\
    WebhookURL c = "https://hooks.slack.com/services/..." /\
    WebhookURL c = WebhookURL defaultConfig /\
    templates c = mkTemplates (Some st) (Some fi) /\
    DashboardId c = DashboardId defaultConfig /\
    Users c = Users defaultConfig.
Proof.
  intros Hnone Hr Hw Hst Hfi.
  rewrite (generateConfig_writes flag s Hnone Hr Hw). cbn [fst snd files].
  split; [reflexivity |]. split; [apply lookup_insert_eq |].
  eexists. rewrite loadConfig_eq. cbn [unreadable files].
  destruct (decide (configPath flag ∈ unreadable s)); [contradiction |].
  rewrite lookup_insert_eq, (Unmarshal_default st fi Hst Hfi). cbn.
  repeat split.
Qed.

(** * Further properties of the program *)

(** ** Payload finalisation keeps what is set *)

(** X1: [reverseMergeDefault] never overwrites a field that is set: in the
    payload it returns the text and the icon emoji are those of the
    argument, and the icon URL is that of the argument unless both icons
    were empty. *)
Theorem reverseMergeDefault_keeps_set_fields (p p' : Payload) :
  reverseMergeDefault p = Ret p' ->
  Text p' = Text p /\
  IconEmoji p' = IconEmoji p /\
  (IconEmoji p <> "" \/ IconUrl p <> "" -> IconUrl p' = IconUrl p).
Proof.
  rewrite reverseMergeDefault_spec.
  destruct (negb _ && negb _); [discriminate |].
  intros Hr; injection Hr as <-; cbn.
  split; [reflexivity |]. split; [reflexivity |].
  intros [He | Hu].
  - apply eqb_empty_false in He. rewrite He. reflexivity.
  - apply eqb_empty_false in Hu. rewrite Hu, andb_false_r. reflexivity.
Qed.

(** A payload with a URL icon and a text. *)
Lemma reverseMergeDefault_keeps_set_fields_witness :
  Text (mkPayload "#general" "" "http://example.org/i.png" "Toggl" "hello") = "hello" /\
  IconEmoji (mkPayload "#general" "" "http://example.org/i.png" "Toggl" "hello") = "" /\
  IconUrl (mkPayload "#general" "" "http://example.org/i.png" "Toggl" "hello")
  = "http://example.org/i.png".
Proof.
  pose proof (reverseMergeDefault_keeps_set_fields
                (mkPayload "" "" "http://example.org/i.png" "" "hello")
                (mkPayload "#general" "" "http://example.org/i.png" "Toggl" "hello") eq_refl)
    as (Ht & He & Hu).
  refine (conj Ht (conj He (Hu (or_intror _)))). discriminate.
Defined.

(** ** When a callback panics *)

Lemma report_returns (t : option Template) (a : Activity) (p : Payload) (s : State) (e : error) :
  fst (notify t a p s) = Ret e -> fst (bind (notify t a p) report s) = Ret tt.
Proof.
  unfold bind. destruct (notify t a p s) as [[e' | msg | code] s']; cbn; try discriminate.
  intros _. destruct e'; reflexivity.
Qed.

Lemma notify_returns (tm : Template) (a : Activity) (p : Payload) (s : State) :
  IconEmoji p = "" \/ IconUrl p = "" -> exists e, fst (notify (Some tm) a p s) = Ret e.
Proof.
  intros Hone. rewrite notify_spec.
  destruct (reverseMergeDefault_returns (set_Text (template_Execute tm a) p) Hone) as [p' ->].
  destruct (requestFor (config s) p'); [| eauto].
  destruct (network s (sent s) _); eauto.
Qed.

(** X4: a callback returns normally whatever the network and the webhook
    URL are; it panics in two cases only, both of them on an event of a user
    of the mapping: with a [nil] template it panics on the nil dereference,
    and with both icons set in the stored payload it panics with the message
    of [reverseMergeDefault]; in both cases the state is left as it was. *)
Theorem callbacks_panic_on_configuration_only (e : Event) (s : State) :
  match Users (config s) !! Itoa (UserId (activityOf e)), templateOf (config s) e with
  | None, _ => handle e s = (Ret tt, s)
  | Some p, None => handle e s = (Panic nilDereference, s)
  | Some p, Some tm =>
      (IconEmoji p <> "" /\ IconUrl p <> "" -> handle e s = (Panic bothIconsMessage, s)) /\
      (IconEmoji p = "" \/ IconUrl p = "" -> fst (handle e s) = Ret tt)
  end.
Proof.
  rewrite handle_eq.
  destruct (Users (config s) !! Itoa (UserId (activityOf e))) as [p |]; [| reflexivity].
  destruct (templateOf (config s) e) as [tm |]; [| reflexivity].
  split.
  - intros [He Hu]. unfold bind. rewrite notify_spec.
    rewrite (reverseMergeDefault_panics (set_Text (template_Execute tm (activityOf e)) p));
      auto.
  - intros Hone. destruct (notify_returns tm (activityOf e) p s Hone) as [err Herr].
    exact (report_returns _ _ _ _ _ Herr).
Qed.

(** ** What the callbacks do to the state *)

Lemma report_effects (t : option Template) (a : Activity) (p : Payload) (s : State) :
  let s1 := snd (notify t a p s) in
  let s2 := snd (bind (notify t a p) report s) in
  files s2 = files s1 /\ unreadable s2 = unreadable s1 /\ unwritable s2 = unwritable s1 /\
  stdout s2 = stdout s1 /\ network s2 = network s1 /\ sent s2 = sent s1 /\
  exists lines, logged s2 = logged s1 ++ lines.
Proof.
  unfold bind. destruct (notify t a p s) as [[[e |] | msg | code] s']; cbn;
    repeat split; first [ (exists [errorLine e]; reflexivity)
                        | (exists []; rewrite app_nil_r; reflexivity) ].
Qed.

Lemma requestFor_webhookPost (c : Config) (p : Payload) (req : Request) :
  requestFor c p = Ok req -> webhookPost c req.
Proof.
  rewrite requestFor_eq. unfold http_NewRequest.
  destruct (url_Host _); [| discriminate]. intros Hr; injection Hr as <-.
  repeat split.
Qed.

Lemma notify_effects (t : option Template) (a : Activity) (p : Payload) (s : State) :
  let s1 := snd (notify t a p s) in
  files s1 = files s /\ unreadable s1 = unreadable s /\ unwritable s1 = unwritable s /\
  stdout s1 = stdout s /\ network s1 = network s /\
  exists new lines,
    sent s1 = sent s ++ new /\ logged s1 = logged s ++ lines /\
    (length new <= 1)%nat /\ Forall (webhookPost (config s)) new.
Proof.
  assert (Hnone : forall s1, s1 = s ->
             files s1 = files s /\ unreadable s1 = unreadable s /\
             unwritable s1 = unwritable s /\ stdout s1 = stdout s /\ network s1 = network s /\
             exists new lines,
               sent s1 = sent s ++ new /\ logged s1 = logged s ++ lines /\
               (length new <= 1)%nat /\ Forall (webhookPost (config s)) new).
  { intros s1 ->. repeat split. exists [], []. rewrite !app_nil_r.
    repeat split; [cbn; lia | constructor]. }
  destruct t as [tm |]; [| apply Hnone; reflexivity].
  cbn zeta. rewrite notify_spec.
  destruct (reverseMergeDefault _) as [p' | msg | code]; try (apply Hnone; reflexivity).
  destruct (requestFor (config s) p') as [req | e] eqn:Hr; [| apply Hnone; reflexivity].
  apply requestFor_webhookPost in Hr.
  destruct (network s (sent s) req) as [resp | e]; cbn; repeat split;
    eexists [req], _; repeat split; auto.
Qed.

Lemma handle_effects (e : Event) (s : State) :
  let s1 := snd (handle e s) in
  files s1 = files s /\ unreadable s1 = unreadable s /\ unwritable s1 = unwritable s /\
  stdout s1 = stdout s /\ network s1 = network s /\
  exists new lines,
    sent s1 = sent s ++ new /\ logged s1 = logged s ++ lines /\
    (length new <= 1)%nat /\ Forall (webhookPost (config s)) new.
Proof.
  cbn zeta. rewrite handle_eq.
  destruct (Users (config s) !! Itoa (UserId (activityOf e))) as [p |].
  - destruct (report_effects (templateOf (config s) e) (activityOf e) p s)
      as (-> & -> & -> & -> & -> & -> & lines2 & ->).
    destruct (notify_effects (templateOf (config s) e) (activityOf e) p s)
      as (Hf & Hr & Hw & Ho & Hn & new & lines & Hs & Hl & Hlen & Hall).
    repeat split; auto.
    exists new, (lines ++ lines2). rewrite Hl, app_assoc. auto.
  - repeat split. exists [], []. rewrite !app_nil_r.
    repeat split; [cbn; lia | constructor].
Qed.

Lemma run_effects (events : list Event) (s : State) :
  let s1 := snd (run events s) in
  files s1 = files s /\ unreadable s1 = unreadable s /\ unwritable s1 = unwritable s /\
  stdout s1 = stdout s /\ network s1 = network s /\
  exists new lines,
    sent s1 = sent s ++ new /\ logged s1 = logged s ++ lines /\
    (length new <= length events)%nat /\ Forall (webhookPost (config s)) new.
Proof.
  cbn zeta. revert s. induction events as [| e rest IH]; intros s.
  - repeat split. exists [], []. rewrite !app_nil_r. repeat split; [cbn; lia | constructor].
  - rewrite run_cons.
    pose proof (handle_effects e s) as He. pose proof (handle_config e s) as Hc.
    cbn zeta in He.
    destruct He as (Hf & Hr & Hw & Ho & Hn & new & lines & Hs & Hl & Hlen & Hall).
    destruct (handle e s) as [[u | msg | code] s1]; cbn [snd] in *.
    + destruct (IH s1) as (Hf' & Hr' & Hw' & Ho' & Hn' & new' & lines' & Hs' & Hl' & Hlen' & Hall').
      rewrite Hf', Hr', Hw', Ho', Hn', Hs', Hl', Hs, Hl. repeat split; auto.
      exists (new ++ new'), (lines ++ lines'). rewrite !app_assoc.
      repeat split; [rewrite length_app; cbn; lia |].
      apply Forall_app. split; [exact Hall |]. rewrite <- Hc. exact Hall'.
    + repeat split; auto. exists new, lines. repeat split; auto. cbn; lia.
    + repeat split; auto. exists new, lines. repeat split; auto. cbn; lia.
Qed.

(** X3: whatever events are handled, the requests the program sends are
    added after those sent before, there is at most one per event, and each
    is an HTTP/1.1 POST to the webhook URL of the configuration with the
    JSON content type. *)
Theorem requests_are_json_posts_to_webhook (events : list Event) (s : State) :
  exists new,
    sent (snd (run events s)) = sent s ++ new /\
    (length new <= length events)%nat /\
    Forall (webhookPost (config s)) new.
Proof.
  destruct (run_effects events s) as (_ & _ & _ & _ & _ & new & lines & Hs & _ & Hlen & Hall).
  exists new. auto.
Qed.

(** X5: handling events never touches the files, what can be read or
    written, the standard output or the network's behaviour, and it only
    adds lines to the log. *)
Theorem callbacks_touch_log_and_requests_only (events : list Event) (s : State) :
  files (snd (run events s)) = files s /\
  unreadable (snd (run events s)) = unreadable s /\
  unwritable (snd (run events s)) = unwritable s /\
  stdout (snd (run events s)) = stdout s /\
  network (snd (run events s)) = network s /\
  exists lines, logged (snd (run events s)) = logged s ++ lines.
Proof.
  destruct (run_effects events s) as (Hf & Hr & Hw & Ho & Hn & new & lines & _ & Hl & _).
  repeat split; auto. exists lines. exact Hl.
Qed.

(** ** Keys that no activity reaches *)

Lemma handle_unreachable (e : Event) (s : State) :
  (forall k, is_Some (Users (config s) !! k) -> decimal k = false) ->
  handle e s = (Ret tt, s).
Proof.
  intros Hkeys. rewrite handle_eq.
  destruct (Users (config s) !! Itoa (UserId (activityOf e))) as [p |] eqn:Hu; [| reflexivity].
  assert (decimal (Itoa (UserId (activityOf e))) = false) as Hd
      by (apply Hkeys; rewrite Hu; eauto).
  rewrite Itoa_decimal in Hd. discriminate.
Qed.

Lemma run_unreachable (events : list Event) (s : State) :
  (forall k, is_Some (Users (config s) !! k) -> decimal k = false) ->
  run events s = (Ret tt, s).
Proof.
  intros Hkeys. induction events as [| e rest IH]; [reflexivity |].
  rewrite run_cons, (handle_unreachable e s Hkeys). exact IH.
Qed.

(** X6: when no key of the users mapping is a canonical decimal numeral,
    no event has any effect: each callback, and every sequence of events,
    returns normally and leaves the whole state as it was. *)
Theorem no_decimal_key_no_notification (s : State) :
  (forall k, is_Some (Users (config s) !! k) -> decimal k = false) ->
  (forall a, onStart a s = (Ret tt, s) /\ onStop a s = (Ret tt, s)) /\
  (forall events, run events s = (Ret tt, s)).
Proof.
  intros Hkeys. split.
  - intros a. split.
    + exact (handle_unreachable (Start a) s Hkeys).
    + exact (handle_unreachable (Stop a) s Hkeys).
  - intros events. exact (run_unreachable events s Hkeys).
Qed.

(** ** A webhook URL that cannot be parsed *)

(** X7: when the webhook URL of the configuration cannot be parsed, an
    event of a user of the mapping sends nothing: [notify] returns the error
    of [http.NewRequest] before it logs anything, and the callback logs that
    error on one ERROR line, stores it in [err], and returns normally. *)
Theorem unparsable_webhook_sends_nothing
    (e : Event) (p p' : Payload) (tm : Template) (msg : string) (s : State) :
  Users (config s) !! Itoa (UserId (activityOf e)) = Some p ->
  templateOf (config s) e = Some tm ->
  reverseMergeDefault (set_Text (template_Execute tm (activityOf e)) p) = Ret p' ->
  url_Host (WebhookURL (config s)) = Err msg ->
  notify (Some tm) (activityOf e) p s = (Ret (Some msg), s) /\
  fst (handle e s) = Ret tt /\
  sent (snd (handle e s)) = sent s /\
  logged (snd (handle e s)) = logged s ++ [errorLine msg] /\
  err (snd (handle e s)) = Some msg.
Proof.
  intros Hu Ht Hp Hurl.
  assert (requestFor (config s) p' = Err msg) as Hr
      by (rewrite requestFor_eq; unfold http_NewRequest; rewrite Hurl; reflexivity).
  pose proof (notify_bad_url tm (activityOf e) p p' msg s Hp Hr) as Hn.
  split; [exact Hn |].
  rewrite handle_eq, Hu, Ht. unfold bind. rewrite Hn. repeat split.
Qed.

(** ** Loading the configuration *)

Lemma loadConfig_state (path : string) (s : State) : snd (loadConfig path s) = s.
Proof.
  rewrite loadConfig_eq.
  destruct (decide (path ∈ unreadable s)); [reflexivity |].
  destruct (files s !! path) as [text |]; [| reflexivity].
  destruct (Unmarshal text zeroConfig) as [[c [e |]] | msg | code]; reflexivity.
Qed.

(** X8: [loadConfig] only reads: it leaves the state as it was however it
    ends; a missing or unreadable file is an error, and so is a file that is
    not one JSON value (the empty file included), none of which makes it
    panic. *)
Theorem loadConfig_reports_unusable_files (path : string) (s : State) :
  snd (loadConfig path s) = s /\
  (path ∈ unreadable s ->
   fst (loadConfig path s) = Ret (Err ("open " +:+ path +:+ ": permission denied"))) /\
  (path ∉ unreadable s -> files s !! path = None ->
   fst (loadConfig path s) = Ret (Err ("open " +:+ path +:+ ": no such file or directory"))) /\
  (forall text, path ∉ unreadable s -> files s !! path = Some text -> parse text = None ->
   exists e, fst (loadConfig path s) = Ret (Err e)) /\
  (path ∉ unreadable s -> files s !! path = Some "" ->
   exists e, fst (loadConfig path s) = Ret (Err e)).
Proof.
  split; [apply loadConfig_state |]. rewrite loadConfig_eq.
  destruct (decide (path ∈ unreadable s)) as [Hin | Hout].
  - split; [reflexivity |]. repeat split; intros; contradiction.
  - split; [intros; contradiction |]. split; [| split].
    + intros _ ->. reflexivity.
    + intros text _ -> Hp. unfold Unmarshal. rewrite Hp. eauto.
    + intros _ ->. cbn. eauto.
Qed.

(** X9: [start] exits with status 1, after logging the error on one line
    and without touching [config], whenever [loadConfig] returns an error;
    when [loadConfig] returns a configuration, [start] stores it in [config],
    clears [err], logs nothing and goes on. *)
Theorem start_loads_or_exits (flag : string) (s : State) :
  (forall e, fst (loadConfig (configPath flag) s) = Ret (Err e) ->
   fst (start flag s) = Exit 1 /\
   logged (snd (start flag s)) = logged s ++ [e +:+ endl] /\
   config (snd (start flag s)) = config s /\
   sent (snd (start flag s)) = sent s) /\
  (forall c, fst (loadConfig (configPath flag) s) = Ret (Ok c) ->
   fst (start flag s) = Ret tt /\
   config (snd (start flag s)) = c /\
   err (snd (start flag s)) = nil_error /\
   logged (snd (start flag s)) = logged s /\
   sent (snd (start flag s)) = sent s).
Proof.
  pose proof (loadConfig_state (configPath flag) s) as Hs.
  unfold start, bind.
  destruct (loadConfig (configPath flag) s) as [[[c | e] | msg | code] s1];
    cbn [fst snd] in *; subst s1; split; intros x Hx; try discriminate Hx;
    injection Hx as <-; repeat split.
Qed.

(** ** Marshalling a configuration that was loaded *)

Lemma parse_empty : parse "" = None.
Proof. reflexivity. Qed.

(** X10: [Templates.MarshalJSON] answers for the zero value only: as soon
    as one of the two templates is set it returns no bytes, the encoder
    refuses them, and marshalling the configuration fails; so a
    configuration that went through [Templates.UnmarshalJSON] cannot be
    written out again. *)
Theorem marshalling_set_templates_fails (c : Config) (unit : string) :
  is_Some (Started (templates c)) \/ is_Some (Finished (templates c)) ->
  MarshalJSON (templates c) = Ok "" /\
  MarshalIndent c unit = Err "json: error calling MarshalJSON for type main.Templates".
Proof.
  intros Hset.
  assert (MarshalJSON (templates c) = Ok "") as Hm.
  { unfold MarshalJSON. destruct Hset as [[st Hst] | [fi Hfi]].
    - rewrite Hst. reflexivity.
    - rewrite Hfi. destruct (Started (templates c)); reflexivity. }
  split; [exact Hm |].
  unfold MarshalIndent, marshalConfig, marshalTemplates. rewrite Hm, parse_empty. reflexivity.
Qed.

(** ** Decoding a configuration document *)





Lemma fold_Stopped (ms : list (string * json)) (c : Config) (e : string) :
  fold_left storeConfigField ms (Stopped c e) = Stopped c e.
Proof. induction ms as [| kv ms IH]; [reflexivity | exact IH]. Qed.








(** ** Round trips of the struct tags *)













(** ** The two revisions of the wire message *)

(** X16: the two revisions of [Payload] write the same wire message for
    every payload with a text; for a payload without text the earlier
    revision writes the message of the later one with an empty [text] field
    added at the end, so in the earlier revision [text] is always present. *)
Theorem revisions_differ_on_empty_text_only (p : Payload) :
  (Text p <> "" -> Legacy.marshalPayload p = marshalPayload p) /\
  (Text p = "" ->
   exists ms, marshalPayload p = JObj ms /\
              Legacy.marshalPayload p = JObj (ms ++ [("text", JStr "")])) /\
  "text" ∈ keys (Legacy.marshalPayload p).
Proof.
  unfold Legacy.marshalPayload, marshalPayload. split; [| split].
  - intros Ht. apply eqb_empty_false in Ht. unfold omitEmpty. rewrite Ht.
    reflexivity.
  - intros Ht. rewrite Ht. eexists. split; [reflexivity |].
    cbn [omitEmpty String.eqb]. rewrite app_nil_r, <- !app_assoc. reflexivity.
  - cbn [keys]. rewrite !map_app, !elem_of_app. do 3 right.
    cbn. apply list_elem_of_further, list_elem_of_here.
Qed.

(** ** Writing the default configuration where it cannot be written *)

(** X17: when no file exists at the target path and the file cannot be
    created, [generateConfig] returns the error of the write, prints
    nothing, and leaves the state as it was. *)
Theorem generateConfig_write_failure (flag : string) (s : State) :
  files s !! configPath flag = None ->
  configPath flag ∉ unreadable s ->
  configPath flag ∈ unwritable s ->
  generateConfig flag s
  = (Ret (Some ("open " +:+ configPath flag +:+ ": permission denied")), s).
Proof.
  intros Hnone Hr Hw. unfold generateConfig, bind.
  rewrite os_Stat_eq, Hnone, MarshalIndent_default.
  destruct (decide (configPath flag ∈ unreadable s)); [contradiction |].
  unfold ioutil_WriteFile.
  destruct (decide (configPath flag ∈ unwritable s)); [reflexivity | contradiction].
Qed.

(** ** From the generated file to the running program *)

Lemma default_keys_unreachable (k : string) :
  is_Some (Users defaultConfig !! k) -> decimal k = false.
Proof.
  unfold defaultConfig. cbn [Users]. intros [p Hp].
  apply lookup_insert_Some in Hp. destruct Hp as [[<- _] | [_ Hp]]; [reflexivity |].
  rewrite lookup_empty in Hp. discriminate.
Qed.

(** X2: [start] on the file [generateConfig] has just written loads it
    and goes on without logging anything; the configuration it runs with
    has the users of the default configuration, whose one key is not a
    number, so until the file is edited no event is notified: every sequence
    of events leaves the state as it is. *)
Theorem generated_config_notifies_nobody (flag : string) (s : State) (st fi : Template) :
  files s !! configPath flag = None ->
  configPath flag ∉ unreadable s ->
  configPath flag ∉ unwritable s ->
  template_Parse "started" "started {{.Description}}" = Ok st ->
  template_Parse "finished" "finished {{.Description}}" = Ok fi ->
  fst (start flag (snd (generateConfig flag s))) = Ret tt /\
  logged (snd (start flag (snd (generateConfig flag s)))) = logged s /\
  Users (config (snd (start flag (snd (generateConfig flag s))))) = Users defaultConfig /\
  forall events,
    run events (snd (start flag (snd (generateConfig flag s))))
    = (Ret tt, snd (start flag (snd (generateConfig flag s)))).
Proof.
  intros Hnone Hr Hw Hst Hfi.
  rewrite (generateConfig_writes flag s Hnone Hr Hw). cbn [snd].
  unfold start, bind. rewrite loadConfig_eq. cbn [unreadable files].
  destruct (decide (configPath flag ∈ unreadable s)); [contradiction |].
  rewrite lookup_insert_eq, (Unmarshal_default st fi Hst Hfi). cbn.
  split; [reflexivity |]. split; [reflexivity |]. split; [reflexivity |].
  intros events. apply run_unreachable. cbn [config Users].
  exact default_keys_unreachable.
Qed.

End Properties.

(** * Runs on the reference instance *)

Import Json Reference.

(** A stop event on a network that cannot be reached: [notify] returns the
    error of the client and the callback logs it. *)
Lemma notify_fails_on_transport_errors_only_witness :
  fst (notify (Some [Lit "finished "; Field "Description"])
         sampleActivity (mkPayload "#dev" "" "" "" "")
         (initial unreachable sampleConfig))
  = Ret (Some "dial tcp: connection refused") /\
  logged (snd (handle (Stop sampleActivity) (initial unreachable sampleConfig)))
  = ["HTTP/1.1 POST hooks.slack.com" +:+ endl;
     errorLine "dial tcp: connection refused"].
Proof.
  assert (Hr : requestFor sampleConfig
                 (mkPayload "#dev" "" defaultIconUrl "Toggl" "finished writing proofs")
               = Ok (mkRequest "POST" "https://hooks.slack.com/services/T/B/X" "HTTP/1.1"
                       "hooks.slack.com" "application/json"
                       (compact (marshalPayload
                          (mkPayload "#dev" "" defaultIconUrl "Toggl"
                             "finished writing proofs")))))
    by (vm_compute; reflexivity).
  assert (Hu : Users sampleConfig !! Itoa (UserId sampleActivity)
               = Some (mkPayload "#dev" "" "" "" ""))
    by (vm_compute; reflexivity).
  exact (notify_fails_on_transport_errors_only (H := externals)
           (Stop sampleActivity) (mkPayload "#dev" "" "" "" "") _ _ _
           (initial unreachable sampleConfig)
           Hu eq_refl eq_refl Hr).
Defined.

(** C1 (as stated) fails: on a network that answers every request with
    status 500, [notify] returns [nil], and the callback logs the two lines
    of the exchange and no ERROR line. *)
Lemma notify_http_500_returns_nil :
  fst (notify (Some [Lit "started "; Field "Description"])
         sampleActivity (mkPayload "#dev" "" "" "" "")
         (initial (answering 500 "500 Internal Server Error")
            sampleConfig))
  = Ret nil_error /\
  is2xx 500 = false /\
  logged (snd (onStart sampleActivity
                 (initial (answering 500 "500 Internal Server Error")
                    sampleConfig)))
  = ["HTTP/1.1 POST hooks.slack.com" +:+ endl;
     "HTTP/1.1 500 Internal Server Error" +:+ endl].
Proof. repeat (split; [vm_compute; reflexivity |]). vm_compute; reflexivity. Qed.

(** A user configured with both icons: the start event panics before
    anything is logged or sent. *)
Lemma both_icons_example :
  fst (onStart sampleActivity
         (initial (answering 200 "200 OK")
            (set_Users (<["42" := mkPayload "#dev" ":clock1:" "http://example.org/i.png" "" ""]> ∅)
               sampleConfig)))
  = Panic "Do not specify both icon_emoji and icon_url" /\
  sent (snd (onStart sampleActivity
               (initial (answering 200 "200 OK")
                  (set_Users
                     (<["42" := mkPayload "#dev" ":clock1:" "http://example.org/i.png" "" ""]> ∅)
                     sampleConfig))))
  = [] /\
  logged (snd (onStart sampleActivity
                 (initial (answering 200 "200 OK")
                    (set_Users
                       (<["42" := mkPayload "#dev" ":clock1:" "http://example.org/i.png" "" ""]> ∅)
                       sampleConfig))))
  = [].
Proof. repeat (split; [vm_compute; reflexivity |]). vm_compute; reflexivity. Qed.

(** Generating twice: the second run fails and leaves the file of the first
    one in place. *)
Lemma generateConfig_twice :
  fst (generateConfig "" (snd (generateConfig "" (initial unreachable zeroConfig))))
  = Ret (Some "config.json already exists") /\
  files (snd (generateConfig "" (snd (generateConfig "" (initial unreachable zeroConfig)))))
  !! "config.json"
  = Some defaultConfigText /\
  stdout (snd (generateConfig "" (snd (generateConfig "" (initial unreachable zeroConfig)))))
  = ["config.json was generated" +:+ endl].
Proof. repeat (split; [vm_compute; reflexivity |]). vm_compute; reflexivity. Qed.

(** Generating into an empty directory and loading the file back, on the
    reference template engine. *)
Lemma default_config_round_trip_witness :
  fst (generateConfig "" (initial unreachable zeroConfig)) = Ret nil_error /\
  files (snd (generateConfig "" (initial unreachable zeroConfig))) !! configPath ""
  = Some defaultConfigText /\
  exists c,
    fst (loadConfig (configPath "") (snd (generateConfig "" (initial unreachable zeroConfig))))
    = Ret (Ok c) /\
    Interval c = 60 /\ Interval c = Interval defaultConfig /\
    TogglToken c = "YOUR_TOGGL_TOKEN" /\ TogglToken c = TogglToken defaultConfig /\
    WebhookURL c = "https://hooks.slack.com/services/..." /\
    WebhookURL c = WebhookURL defaultConfig /\
    templates c = mkTemplates (Some [Lit "started "; Field "Description"])
                              (Some [Lit "finished "; Field "Description"]) /\
    DashboardId c = DashboardId defaultConfig /\
    Users c = Users defaultConfig.
Proof.
  assert (Hnone : files (initial unreachable zeroConfig) !! configPath "" = None)
    by (vm_compute; reflexivity).
  assert (Hr : configPath "" ∉ unreadable (initial unreachable zeroConfig))
    by (cbn; apply not_elem_of_empty).
  assert (Hw : configPath "" ∉ unwritable (initial unreachable zeroConfig))
    by (cbn; apply not_elem_of_empty).
  exact (default_config_round_trip "" (initial unreachable zeroConfig)
           [Lit "started "; Field "Description"] [Lit "finished "; Field "Description"]
           Hnone Hr Hw eq_refl eq_refl).
Defined.

(** C7 (as stated) fails on [text]: for an activity without description
    and a [started] template that shows the description only, the rendered
    text is empty, the finalised payload has an empty [Text], and the body
    sent has the fields [channel], [icon_url] and [username] and no field
    [text]. *)
Lemma wire_message_without_text :
  template_Parse "started" "{{.Description}}" = Ok [Field "Description"] /\
  reverseMergeDefault (set_Text (template_Execute [Field "Description"] (mkActivity 42 ""))
                         (mkPayload "#dev" "" "" "" ""))
  = Ret (mkPayload "#dev" "" defaultIconUrl "Toggl" "") /\
  keys (marshalPayload (mkPayload "#dev" "" defaultIconUrl "Toggl" ""))
  = ["channel"; "icon_url"; "username"] /\
  hasKey "text" (marshalPayload (mkPayload "#dev" "" defaultIconUrl "Toggl" "")) = false /\
  map Body (sent (snd (onStart (mkActivity 42 "")
                         (initial (answering 200 "200 OK")
                            (set_templates (mkTemplates (Some [Field "Description"]) None)
                               sampleConfig)))))
  = [compact (JObj [("channel", JStr "#dev");
                    ("icon_url", JStr defaultIconUrl);
                    ("username", JStr "Toggl")])].
Proof. repeat (split; [vm_compute; reflexivity |]). vm_compute; reflexivity. Qed.

(** Keys that are not canonical decimal numerals, and a user stored under
    such a key: the activity of user 42 is not dispatched to the payload
    stored under [042]. *)
Lemma non_decimal_keys_never_match :
  decimal "007" = false /\ decimal "abc" = false /\ decimal "4 2" = false /\
  decimal "-0" = false /\ decimal "+42" = false /\ decimal "" = false /\
  decimal "42" = true /\ decimal "-42" = true /\ decimal "0" = true /\
  Itoa (UserId sampleActivity) = "42" /\
  fst (onStart sampleActivity
         (initial unreachable (set_Users (<["042" := zeroPayload]> ∅) sampleConfig)))
  = Ret tt /\
  sent (snd (onStart sampleActivity
               (initial unreachable (set_Users (<["042" := zeroPayload]> ∅) sampleConfig))))
  = [] /\
  logged (snd (onStart sampleActivity
                 (initial unreachable (set_Users (<["042" := zeroPayload]> ∅) sampleConfig))))
  = [].
Proof. repeat (split; [vm_compute; reflexivity |]). vm_compute; reflexivity. Qed.

(** * Further runs on the reference instance *)

Import Samples.

(** The default configuration, whose one key is [TOGGL_USER_ID]. *)
Lemma no_decimal_key_no_notification_witness :
  (forall a,
      onStart a (initial unreachable defaultConfig)
      = (Ret tt, initial unreachable defaultConfig) /\
      onStop a (initial unreachable defaultConfig)
      = (Ret tt, initial unreachable defaultConfig)) /\
  (forall events,
      run events (initial unreachable defaultConfig)
      = (Ret tt, initial unreachable defaultConfig)).
Proof.
  exact (no_decimal_key_no_notification (initial unreachable defaultConfig)
           default_keys_unreachable).
Defined.

(** A start event with a line feed in the webhook URL, on a network that
    would answer. *)
Lemma unparsable_webhook_sends_nothing_witness :
  notify (Some [Lit "started "; Field "Description"]) sampleActivity
         (mkPayload "#dev" "" "" "" "") (initial (answering 200 "200 OK") badUrlConfig)
  = (Ret (Some "net/url: invalid control character in URL"),
     initial (answering 200 "200 OK") badUrlConfig) /\
  fst (handle (Start sampleActivity) (initial (answering 200 "200 OK") badUrlConfig))
  = Ret tt /\
  sent (snd (handle (Start sampleActivity) (initial (answering 200 "200 OK") badUrlConfig)))
  = [] /\
  logged (snd (handle (Start sampleActivity) (initial (answering 200 "200 OK") badUrlConfig)))
  = [] ++ [errorLine "net/url: invalid control character in URL"] /\
  err (snd (handle (Start sampleActivity) (initial (answering 200 "200 OK") badUrlConfig)))
  = Some "net/url: invalid control character in URL".
Proof.
  assert (Hu : Users badUrlConfig !! Itoa (UserId sampleActivity)
               = Some (mkPayload "#dev" "" "" "" ""))
    by (vm_compute; reflexivity).
  assert (Hurl : url_Host (WebhookURL badUrlConfig)
                 = Err "net/url: invalid control character in URL")
    by (vm_compute; reflexivity).
  exact (unparsable_webhook_sends_nothing (H := externals)
           (Start sampleActivity) (mkPayload "#dev" "" "" "" "")
           (mkPayload "#dev" "" defaultIconUrl "Toggl" "started writing proofs")
           [Lit "started "; Field "Description"]
           "net/url: invalid control character in URL"
           (initial (answering 200 "200 OK") badUrlConfig)
           Hu eq_refl eq_refl Hurl).
Defined.

(** The sample configuration, whose templates are set. *)
Lemma marshalling_set_templates_fails_witness :
  MarshalJSON (templates sampleConfig) = Ok "" /\
  MarshalIndent sampleConfig "    "
  = Err "json: error calling MarshalJSON for type main.Templates".
Proof.
  apply (marshalling_set_templates_fails sampleConfig "    ").
  left. eexists. reflexivity.
Defined.





(** An empty directory in which the file cannot be created. *)
Lemma generateConfig_write_failure_witness :
  generateConfig "" (lockedDirectory "config.json")
  = (Ret (Some ("open " +:+ configPath "" +:+ ": permission denied")),
     lockedDirectory "config.json").
Proof.
  apply (generateConfig_write_failure (H := externals) "" (lockedDirectory "config.json")).
  - reflexivity.
  - cbn. apply not_elem_of_empty.
  - cbn. apply elem_of_singleton. reflexivity.
Defined.

(** Generating into an empty directory, then starting. *)
Lemma generated_config_notifies_nobody_witness :
  fst (start "" (snd (generateConfig "" (initial unreachable zeroConfig)))) = Ret tt /\
  logged (snd (start "" (snd (generateConfig "" (initial unreachable zeroConfig)))))
  = logged (initial unreachable zeroConfig) /\
  Users (config (snd (start "" (snd (generateConfig "" (initial unreachable zeroConfig))))))
  = Users defaultConfig /\
  forall events,
    run events (snd (start "" (snd (generateConfig "" (initial unreachable zeroConfig)))))
    = (Ret tt, snd (start "" (snd (generateConfig "" (initial unreachable zeroConfig))))).
Proof.
  assert (Hnone : files (initial unreachable zeroConfig) !! configPath "" = None)
    by (vm_compute; reflexivity).
  assert (Hr : configPath "" ∉ unreadable (initial unreachable zeroConfig))
    by (cbn; apply not_elem_of_empty).
  assert (Hw : configPath "" ∉ unwritable (initial unreachable zeroConfig))
    by (cbn; apply not_elem_of_empty).
  exact (generated_config_notifies_nobody (H := externals) ""
           (initial unreachable zeroConfig)
           [Lit "started "; Field "Description"] [Lit "finished "; Field "Description"]
           Hnone Hr Hw eq_refl eq_refl).
Defined.
